(** * The resilience layer of the HTTP client (src/services/api.ts)

    A shallow embedding of the axios interceptors of [api.ts]: the
    sliding-window admission gate, the request tagger, the response
    classifier and the retry orchestrator, followed by the properties of
    the specification that were checked against them.

    Conventions of the embedding.
    - JavaScript numbers are exact: integers are [Z], the delays (which mix
      [Math.random()] and [parseInt]) are rationals with a [NaN]. The doubles
      of the code are these numbers on the integers up to 2^53.
    - A string is the sequence of its code units, each below 256.
    - The module-level variables ([retryCount], [rateLimitConfig.requestQueue]),
      [localStorage] and [window.location.pathname] are the fields of one
      [world] that every function threads through.
    - What the code does to the outside (toasts, the console warning, timers,
      the transport call) is appended to the [trace] of the world.
    - What the code reads from the outside ([Date.now()], [Math.random()], the
      reply of the transport) is an argument.
    - The console output that is gated by [config.logging] is left out: it
      changes neither the state nor the result. *)

From Stdlib Require Import ZArith QArith Qpower String Ascii List Lia Lqa.
From stdpp Require Import gmap strings list pretty.
Import ListNotations.

Open Scope string_scope.
Open Scope Z_scope.
Open Scope list_scope.

(** ** JavaScript values *)

(** A number as far as the delays need it. *)
Inductive number :=
| NaN
| Num (q : Q).

Definition num_mul (a b : number) : number :=
  match a, b with
  | Num x, Num y => Num (x * y)%Q
  | _, _ => NaN
  end.

Definition num_div (a b : number) : number :=
  match a, b with
  | Num x, Num y => Num (x / y)%Q
  | _, _ => NaN
  end.

Definition num_of_Z (z : Z) : number := Num (inject_Z z).

(** [a || b] on numbers: [0] is falsy (an absent setting is read as [0]). *)
Definition or_default (a d : Z) : Z := if a =? 0 then d else a.

(** A string is falsy when it is absent or empty. *)
Definition truthy (o : option string) : option string :=
  match o with
  | Some EmptyString => None
  | _ => o
  end.

(** [o1 || o2] on possibly absent strings. *)
Definition or_else (o1 o2 : option string) : option string :=
  match truthy o1 with
  | Some s => Some s
  | None => o2
  end.

(** [s.includes(sub)] *)
Fixpoint includes (s sub : string) : bool :=
  String.prefix sub s ||
  match s with
  | EmptyString => false
  | String _ s' => includes s' sub
  end.

(** *** [parseInt(string)] without a radix *)

(** White space and line terminators of JavaScript. A string is the sequence
    of its code units and a character here is a code unit below 256, which is
    what a header value is made of: among these, tab to carriage return
    (9-13), the space (32) and the no-break space (160). *)
Definition is_white_space (c : ascii) : bool :=
  let n := Z.of_nat (nat_of_ascii c) in
  ((9 <=? n) && (n <=? 13)) || (n =? 32) || (n =? 160).

Fixpoint trim_start (s : string) : string :=
  match s with
  | String c s' => if is_white_space c then trim_start s' else s
  | EmptyString => EmptyString
  end.

(** The value of [c] as a digit of the given radix. *)
Definition digit_value (radix : Z) (c : ascii) : option Z :=
  let n := Z.of_nat (nat_of_ascii c) in
  let v := if (48 <=? n) && (n <=? 57) then Some (n - 48)
           else if (97 <=? n) && (n <=? 122) then Some (n - 87)
           else if (65 <=? n) && (n <=? 90) then Some (n - 55)
           else None in
  match v with
  | Some d => if d <? radix then Some d else None
  | None => None
  end.

(** Reads the longest prefix of digits; [acc] is [None] until a digit is seen. *)
Fixpoint parse_digits (radix : Z) (acc : option Z) (s : string) : option Z :=
  match s with
  | String c s' =>
      match digit_value radix c with
      | Some d => parse_digits radix (Some (default 0 acc * radix + d)) s'
      | None => acc
      end
  | EmptyString => acc
  end.

Definition strip_sign (s : string) : Z * string :=
  match s with
  | String "-" s' => (-1, s')
  | String "+" s' => (1, s')
  | _ => (1, s)
  end.

Definition strip_hex_prefix (s : string) : Z * string :=
  match s with
  | String "0" (String "x" s') => (16, s')
  | String "0" (String "X" s') => (16, s')
  | _ => (10, s)
  end.

(** The result is the integer the digits denote. JavaScript returns the
    nearest double, which is that integer up to 2^53 in absolute value; the
    properties below use [parseInt] within that range only. *)
Definition parseInt (s : string) : number :=
  let '(sign, s1) := strip_sign (trim_start s) in
  let '(radix, s2) := strip_hex_prefix s1 in
  match parse_digits radix None s2 with
  | Some v => num_of_Z (sign * v)
  | None => NaN
  end.

(** ** Data model *)

(** [config] of '../config/environment', as far as [api.ts] reads it. *)
Record environment := {
  apiRetryAttempts : Z;
  apiRetryDelay : Z
}.

(** An entry of [rateLimitConfig.requestQueue]. *)
Record queue_record := {
  timestamp : Z;
  endpoint : string
}.

Definition maxRequests : Z := 200.
Definition windowMs : Z := 60000.

Record metadata := {
  startTime : Z;
  meta_endpoint : string
}.

(** The request configuration that travels through the interceptors. *)
Record request := {
  url : option string;
  headers : gmap string string;
  _retry : bool;
  req_metadata : option metadata
}.

(** A value of the response body as lines 228-230 tell them apart: a string,
    an array, or anything else ([undefined], [null], a boolean, a number, an
    object), of which only the truthiness is read. *)
#[warnings="-register-all"] Inductive value :=
| Str (s : string)
| Arr (items : list value)
| Opaque (truthiness : bool).

Definition is_truthy (v : value) : bool :=
  match v with
  | Str EmptyString => false
  | Str _ => true
  | Arr _ => true
  | Opaque b => b
  end.

(** [a || b] *)
Definition or_value (a b : value) : value := if is_truthy a then a else b.

(** [data.error] and [data.message] of a body that is an object; a field
    that is not there is [Opaque false]. *)
Record body := {
  data_error : value;
  data_message : value
}.

Record response := {
  status : Z;
  resp_headers : gmap string string;
  data : option body
}.

(** What the error handler of the response interceptor receives. *)
Record error := {
  isRateLimit : bool;
  message : string;
  err_config : option request;
  err_response : option response
}.

Inductive toast_kind := ToastError | ToastInfo.

(** What a toast shows; the template strings keep their arguments, and
    [Items] is an array handed over as it is. *)
Inductive notice :=
| Text (s : string)
| Items (items : list value)
| RateLimitRetrying (seconds : number)
| ConnectionRetrying (attempt limit : Z)
| ServerRetrying (attempt limit : Z).

Inductive event :=
| Toast (k : toast_kind) (n : notice)
| ConsoleWarn (endpoint : string)
| RemoveItem (key : string)
| Redirect (href : string) (after : Z)
| Sleep (delay : number)
| Send (r : request).

Record world := {
  retryCount : Z;
  requestQueue : list queue_record;
  localStorage : gmap string string;
  pathname : string;
  trace : list event
}.

Definition set_retryCount (n : Z) (w : world) : world :=
  {| retryCount := n; requestQueue := requestQueue w;
     localStorage := localStorage w; pathname := pathname w; trace := trace w |}.

Definition set_requestQueue (q : list queue_record) (w : world) : world :=
  {| retryCount := retryCount w; requestQueue := q;
     localStorage := localStorage w; pathname := pathname w; trace := trace w |}.

Definition removeItem (key : string) (w : world) : world :=
  {| retryCount := retryCount w; requestQueue := requestQueue w;
     localStorage := delete key (localStorage w); pathname := pathname w;
     trace := trace w ++ [RemoveItem key] |}.

Definition emit (e : event) (w : world) : world :=
  {| retryCount := retryCount w; requestQueue := requestQueue w;
     localStorage := localStorage w; pathname := pathname w;
     trace := trace w ++ [e] |}.

Definition toast_error (s : string) : world -> world := emit (Toast ToastError (Text s)).

(** [v.includes(needle)]: a substring of a string, an element of an array;
    [None] when [v] has no such method and the call throws a TypeError. *)
Definition value_includes (v : value) (needle : string) : option bool :=
  match v with
  | Str s => Some (includes s needle)
  | Arr items =>
      Some (existsb (fun item => match item with
                                 | Str s => String.eqb s needle
                                 | _ => false
                                 end) items)
  | Opaque _ => None
  end.

(** [toast.error(v)] for a value that has passed the two [includes]. *)
Definition toast_value (v : value) : world -> world :=
  match v with
  | Str s => toast_error s
  | Arr items => emit (Toast ToastError (Items items))
  | Opaque _ => fun w => w
  end.

(** [response.data?.error || response.data?.message || 'Request failed'] *)
Definition error_message (d : option body) : value :=
  or_value
    (or_value (from_option data_error (Opaque false) d)
              (from_option data_message (Opaque false) d))
    (Str "Request failed").

(** ** Sliding-window admission gate *)

Definition cleanupOldRequests (now : Z) (w : world) : world :=
  set_requestQueue
    (List.filter (fun req => now - timestamp req <? windowMs) (requestQueue w)) w.

Definition criticalEndpoints : list string :=
  ["/auth/login"; "/auth/refresh"; "/health"].

Definition is_critical (endpoint : string) : bool :=
  existsb (fun critical => includes endpoint critical) criticalEndpoints.

Definition shouldRateLimit (now : Z) (endpoint : string) (w : world) : world * bool :=
  let w := cleanupOldRequests now w in
  if is_critical endpoint then (w, false)
  else (w, maxRequests <=? Z.of_nat (length (requestQueue w))).

Definition addToRequestQueue (now : Z) (endpoint : string) (w : world) : world :=
  set_requestQueue
    (requestQueue w ++ [{| timestamp := now; endpoint := endpoint |}]) w.

(** ** Request tagger: [apiClient.interceptors.request] *)

Definition rate_limit_error : error :=
  {| isRateLimit := true;
     message := "Rate limit exceeded. Please slow down your requests.";
     err_config := None;
     err_response := None |}.

(** [`req_${Date.now()}_${Math.random().toString(36).substr(2, 9)}`]; the
    random suffix is read from the outside. *)
Definition request_id (now : Z) (suffix : string) : string :=
  "req_" +:+ pretty now +:+ "_" +:+ suffix.

Definition set_header (k v : string) (r : request) : request :=
  {| url := url r; headers := <[k := v]> (headers r); _retry := _retry r;
     req_metadata := req_metadata r |}.

Definition set_metadata (m : metadata) (r : request) : request :=
  {| url := url r; headers := headers r; _retry := _retry r;
     req_metadata := Some m |}.

Definition mark_retry (r : request) : request :=
  {| url := url r; headers := headers r; _retry := true;
     req_metadata := req_metadata r |}.

(** One reading [now] of the clock serves the whole (synchronous) run. *)
Definition request_interceptor (now : Z) (suffix : string) (w : world) (config : request)
  : world * (error + request) :=
  let endpoint := default EmptyString (truthy (url config)) in
  let '(w, limited) := shouldRateLimit now endpoint w in
  if limited then (w, inl rate_limit_error)
  else
    let w := addToRequestQueue now endpoint w in
    let config :=
      match truthy (localStorage w !! "auth_token") with
      | Some token => set_header "Authorization" ("Bearer " +:+ token) config
      | None => config
      end in
    let config := set_metadata {| startTime := now; meta_endpoint := endpoint |} config in
    let config := set_header "X-Request-ID" (request_id now suffix) config in
    (w, inr config).

(** ** Response classifier and retry orchestrator:
       [apiClient.interceptors.response] *)

Inductive rejection :=
| Failed (e : error)
| TypeError.

(** How the error handler ends: it rejects, or it waits [delay] milliseconds
    and returns [apiClient(originalRequest)]. *)
Inductive outcome :=
| Reject (x : rejection)
| Reissue (delay : number) (r : request).

Definition on_fulfilled (w : world) (r : response) : world * response :=
  (set_retryCount 0 w, r).

Definition status_is (e : error) (code : Z) : bool :=
  match err_response e with
  | Some r => status r =? code
  | None => false
  end.

(** [originalRequest?.metadata?.endpoint || originalRequest?.url] *)
Definition request_endpoint (o : option request) : option string :=
  or_else (meta_endpoint <$> (o ≫= req_metadata)) (o ≫= url).

(** The largest delay, in milliseconds, that [setTimeout] takes: a signed
    32-bit integer. *)
Definition timer_max : Z := 2147483647.

(** [array.slice(-n)] *)
Definition slice_last {A} (n : nat) (l : list A) : list A :=
  drop (length l - n) l.

Definition empty_request : request :=
  {| url := None; headers := ∅; _retry := false; req_metadata := None |}.

Definition with_message (m : string) (e : error) : error :=
  {| isRateLimit := isRateLimit e; message := m; err_config := err_config e;
     err_response := err_response e |}.

Section Orchestrator.

Variable config : environment.

Definition maxRetries : Z := or_default (apiRetryAttempts config) 3.
Definition baseDelay : Z := or_default (apiRetryDelay config) 1000.

(** [!error.response && !originalRequest._retry && retryCount < maxRetries];
    [None] when reading [_retry] of an absent request throws. *)
Definition network_guard (w : world) (e : error) : option bool :=
  match err_response e with
  | Some _ => Some false
  | None =>
      match err_config e with
      | Some r => Some (negb (_retry r) && (retryCount w <? maxRetries))
      | None => None
      end
  end.

(** [error.response?.status && error.response.status >= 500 &&
     !originalRequest._retry && retryCount < maxRetries] *)
Definition server_guard (w : world) (e : error) : option bool :=
  match err_response e with
  | Some resp =>
      if negb (status resp =? 0) && (500 <=? status resp) then
        match err_config e with
        | Some r => Some (negb (_retry r) && (retryCount w <? maxRetries))
        | None => None
        end
      else Some false
  | None => Some false
  end.

(** The code after the two retry branches (lines 218-234). *)
Definition terminal_rejection (w : world) (e : error) : world * outcome :=
  let w := set_retryCount 0 w in
  match err_response e with
  | None =>
      let m := "Network error. Please check your internet connection." in
      (toast_error m w, Reject (Failed (with_message m e)))
  | Some resp =>
      if 500 <=? status resp then
        (toast_error "Server error. Please try again later." w, Reject (Failed e))
      else if (400 <=? status resp) && (status resp <? 500) then
        let errorMessage := error_message (data resp) in
        match value_includes errorMessage "Session expired",
              value_includes errorMessage "Access denied" with
        | Some false, Some false => (toast_value errorMessage w, Reject (Failed e))
        | Some true, _ | Some false, Some true => (w, Reject (Failed e))
        | _, _ => (w, Reject TypeError)
        end
      else (w, Reject (Failed e))
  end.

(** The error handler; [rnd] is what [Math.random()] returns if it is called. *)
Definition on_rejected (rnd : Q) (w : world) (e : error) : world * outcome :=
  let originalRequest := err_config e in
  if isRateLimit e then
    (toast_error "Too many requests. Please slow down and try again in a moment." w,
     Reject (Failed e))
  else if status_is e 401 then
    let w := removeItem "auth_token" w in
    let w := removeItem "user_data" w in
    let w := toast_error "Session expired. Please log in again." w in
    let w := if negb (includes (pathname w) "/auth")
             then emit (Redirect "/auth" 1500) w else w in
    (w, Reject (Failed e))
  else if status_is e 403 then
    (toast_error "Access denied. You do not have permission to perform this action." w,
     Reject (Failed e))
  else if status_is e 404 then
    let endpoint := default EmptyString (request_endpoint originalRequest) in
    let w := if includes endpoint "/admin/"
             then emit (ConsoleWarn endpoint) w
             else toast_error "Resource not found." w in
    (w, Reject (Failed e))
  else if status_is e 429 then
    let delay :=
      match truthy (err_response e ≫= fun r => resp_headers r !! "retry-after") with
      | Some retryAfter => num_mul (parseInt retryAfter) (num_of_Z 1000)
      | None => num_of_Z 5000
      end in
    let w := emit (Toast ToastError
                     (RateLimitRetrying (num_div delay (num_of_Z 1000)))) w in
    let w := set_requestQueue (slice_last 50 (requestQueue w)) w in
    (w, Reissue delay (default empty_request originalRequest))
  else
    match network_guard w e, originalRequest with
    | None, _ => (w, Reject TypeError)
    | Some true, Some r =>
        let r := mark_retry r in
        let w := set_retryCount (retryCount w + 1) w in
        let delay := (inject_Z baseDelay * 2 ^ (retryCount w - 1) + rnd * 1000)%Q in
        let w := emit (Toast ToastInfo
                         (ConnectionRetrying (retryCount w) maxRetries)) w in
        (w, Reissue (Num delay) r)
    | _, _ =>
        match server_guard w e, originalRequest with
        | None, _ => (w, Reject TypeError)
        | Some true, Some r =>
            let r := mark_retry r in
            let w := set_retryCount (retryCount w + 1) w in
            let delay := (inject_Z baseDelay * 2 ^ (retryCount w - 1))%Q in
            let w := emit (Toast ToastError
                             (ServerRetrying (retryCount w) maxRetries)) w in
            (w, Reissue (Num delay) r)
        | _, _ => terminal_rejection w e
        end
    end.

(** ** The client: interceptors around the transport *)

(** What one pass through the pipeline reads from the outside. *)
Record attempt := {
  clock : Z;
  suffix : string;
  reply : option response;
  random : Q
}.

Inductive settled :=
| Resolved (r : response)
| Rejected (x : rejection).

(** The error axios builds when the transport fails or the status is not 2xx. *)
Definition transport_error (r : request) (o : option response) : error :=
  {| isRateLimit := false;
     message := match o with
                | Some resp => "Request failed with status code " +:+ pretty (status resp)
                | None => "Network Error"
                end;
     err_config := Some r;
     err_response := o |}.

Definition validateStatus (s : Z) : bool := (200 <=? s) && (s <? 300).

(** [apiClient(request)], the axios promise chain: the request interceptor,
    the transport unless the interceptor rejected, then the success or the
    error handler of the response interceptor. [apiClient(originalRequest)]
    starts the chain again; axios keeps the extra properties of the
    configuration it is given ([_retry], [metadata]) and its headers.
    Each pass takes one [attempt] of the script; the call is still pending
    ([None]) when the script ends before it settles. *)
Fixpoint apiClient (script : list attempt) (w : world) (r : request)
  : world * option settled :=
  match script with
  | [] => (w, None)
  | a :: script =>
      let '(w, tagged) := request_interceptor (clock a) (suffix a) w r in
      let '(w, failure) :=
        match tagged with
        | inl e => (w, inl e)
        | inr r =>
            let w := emit (Send r) w in
            match reply a with
            | Some resp =>
                if validateStatus (status resp) then (w, inr resp)
                else (w, inl (transport_error r (Some resp)))
            | None => (w, inl (transport_error r None))
            end
        end in
      match failure with
      | inr resp => let '(w, resp) := on_fulfilled w resp in (w, Some (Resolved resp))
      | inl e =>
          match on_rejected (random a) w e with
          | (w, Reject x) => (w, Some (Rejected x))
          | (w, Reissue delay r) => apiClient script (emit (Sleep delay) w) r
          end
      end
  end.

End Orchestrator.

(** ** Observations on a run *)

(** The delays the client waited before re-issuing, in order. *)
Definition delays (t : list event) : list number :=
  omap (fun e => match e with Sleep d => Some d | _ => None end) t.

(** The requests that reached the transport, in order. *)
Definition sent (t : list event) : list request :=
  omap (fun e => match e with Send r => Some r | _ => None end) t.

(** The toasts raised, in order. *)
Definition toasts (t : list event) : list (toast_kind * notice) :=
  omap (fun e => match e with Toast k n => Some (k, n) | _ => None end) t.

(** Successive requests entering the request interceptor, each with the
    clock reading and the random suffix it sees. *)
Fixpoint intercept_all (calls : list (Z * string * request)) (w : world)
  : world * list (error + request) :=
  match calls with
  | [] => (w, [])
  | (now, sfx, r) :: calls =>
      let '(w, res) := request_interceptor now sfx w r in
      let '(w, rest) := intercept_all calls w in
      (w, res :: rest)
  end.

Definition let_through (res : error + request) : bool :=
  match res with
  | inr _ => true
  | inl _ => false
  end.

(** A record is still in the window at [now]. *)
Definition fresh (now : Z) (rec : queue_record) : bool :=
  now - timestamp rec <? windowMs.

(** Strings of decimal digits. *)
Fixpoint decimal (s : string) : bool :=
  match s with
  | String c s' => bool_decide (is_Some (digit_value 10 c)) && decimal s'
  | EmptyString => true
  end.

(** ** Sample data *)

Module Sample.

Definition defaults : environment :=
  {| apiRetryAttempts := 3; apiRetryDelay := 1000 |}.

(** A signed-in session with [n] requests recorded at time [t]. *)
Definition session (n : nat) (t : Z) : world :=
  {| retryCount := 0;
     requestQueue := replicate n {| timestamp := t; endpoint := "/articles" |};
     localStorage := {[ "auth_token" := "t0k3n"; "user_data" := "{}" ]};
     pathname := "/admin/articles";
     trace := [] |}.

Definition get (path : string) : request :=
  {| url := Some path;
     headers := {[ "Content-Type" := "application/json" ]};
     _retry := false;
     req_metadata := None |}.

(** The transport fails at time [t]; [Math.random()] returns [rnd]. *)
Definition offline (t : Z) (rnd : Q) : attempt :=
  {| clock := t; suffix := "k3x9q2m1z"; reply := None; random := rnd |}.

(** The server answers [code] at time [t]. *)
Definition answer (t : Z) (code : Z) (hdrs : gmap string string) : attempt :=
  {| clock := t; suffix := "p7w4n8c2d";
     reply := Some {| status := code; resp_headers := hdrs; data := None |};
     random := 0 |}.

(** [get path] as the request interceptor tags it at time [t]. *)
Definition tagged (t : Z) (path : string) : request :=
  match request_interceptor t "k3x9q2m1z" (session 0 t) (get path) with
  | (_, inr r) => r
  | (_, inl _) => get path
  end.

(** The error of a request to [path] that the server answers with [code]. *)
Definition failure (code : Z) (path : string) (hdrs : gmap string string) : error :=
  transport_error (tagged 0 path)
    (Some {| status := code; resp_headers := hdrs; data := None |}).

(** The error of a request to [path] that got no answer. *)
Definition unreachable (path : string) : error :=
  transport_error (tagged 0 path) None.

(** [n] requests for the same page entering the interceptor at time [t]. *)
Definition burst (n : nat) (t : Z) : list (Z * string * request) :=
  replicate n (t, "k3x9q2m1z", get "/articles").

End Sample.

(** * The article editor (src/pages/admin/AdminArticleEditor.tsx)

    The handlers of the component, on the state they read and write: the
    values of the form, [uploadedImage] and [imageAltText]. Rendering and the
    queries are left out; a handler sees the state of the render that follows
    the previous one. *)

Module Editor.

Inductive article_status := Draft | Published | Scheduled.

(** The values of the form ([ArticleFormData]); optional fields may be absent. *)
Record form := {
  title : string;
  excerpt : option string;
  content : string;
  featuredImage : option string;
  featuredImageAlt : option string;
  categoryId : string;
  authorId : option string;
  status : article_status;
  scheduledAt : option string;
  isPinned : option bool;
  seoTitle : option string;
  seoDescription : option string
}.

(** What the upload component hands over: [urls.medium] and [altText]. *)
Record image := {
  medium : string;
  altText : string
}.

Record editor := {
  values : form;
  uploadedImage : option image;
  imageAltText : string
}.

(** The object given to the mutations ([submitData]). *)
Record submitData := {
  s_title : string;
  s_excerpt : option string;
  s_content : string;
  s_featuredImage : string;
  s_featuredImageAlt : string;
  s_categoryId : string;
  s_authorId : option string;
  s_status : article_status;
  s_scheduledAt : option string;
  s_isPinned : option bool;
  s_seoTitle : option string;
  s_seoDescription : option string
}.

(** The article of the server, as far as the editor reads it. *)
Record article := {
  a_title : string;
  a_excerpt : option string;
  a_content : string;
  a_featuredImage : option string;
  a_featuredImageAlt : option string;
  a_category_id : string;
  a_author_id : string;
  a_status : article_status;
  a_scheduledAt : option string;
  a_isPinned : option bool;
  a_seoTitle : option string;
  a_seoDescription : option string
}.

(** How a submission ends: [onSubmit] complains, calls a mutation or throws;
    [Invalid] when the resolver refuses the values and [onSubmit] is not
    called. *)
Inductive submission :=
| Complain (message : string)
| Create (data : submitData)
| Update (data : submitData)
| RangeError
| Invalid.

(** [a || EmptyString] *)
Definition or_empty (o : option string) : string := default EmptyString (truthy o).

(** [!!id && id !== 'new'] *)
Definition isEditing (id : option string) : bool :=
  match truthy id with
  | Some s => negb (String.eqb s "new")
  | None => false
  end.

(** [defaultValues] of [useForm]. *)
Definition defaultValues : form :=
  {| title := EmptyString; excerpt := Some EmptyString; content := EmptyString;
     featuredImage := Some EmptyString; featuredImageAlt := Some EmptyString;
     categoryId := EmptyString; authorId := Some EmptyString; status := Draft;
     scheduledAt := Some EmptyString; isPinned := Some false;
     seoTitle := Some EmptyString; seoDescription := Some EmptyString |}.

Definition initial : editor :=
  {| values := defaultValues; uploadedImage := None; imageAltText := EmptyString |}.

Definition set_image (url alt : string) (f : form) : form :=
  {| title := title f; excerpt := excerpt f; content := content f;
     featuredImage := Some url; featuredImageAlt := Some alt;
     categoryId := categoryId f; authorId := authorId f; status := status f;
     scheduledAt := scheduledAt f; isPinned := isPinned f;
     seoTitle := seoTitle f; seoDescription := seoDescription f |}.

Definition set_alt (alt : string) (f : form) : form :=
  {| title := title f; excerpt := excerpt f; content := content f;
     featuredImage := featuredImage f; featuredImageAlt := Some alt;
     categoryId := categoryId f; authorId := authorId f; status := status f;
     scheduledAt := scheduledAt f; isPinned := isPinned f;
     seoTitle := seoTitle f; seoDescription := seoDescription f |}.

Definition set_status (s : article_status) (f : form) : form :=
  {| title := title f; excerpt := excerpt f; content := content f;
     featuredImage := featuredImage f; featuredImageAlt := featuredImageAlt f;
     categoryId := categoryId f; authorId := authorId f; status := s;
     scheduledAt := scheduledAt f; isPinned := isPinned f;
     seoTitle := seoTitle f; seoDescription := seoDescription f |}.

Definition set_scheduledAt (t : string) (f : form) : form :=
  {| title := title f; excerpt := excerpt f; content := content f;
     featuredImage := featuredImage f; featuredImageAlt := featuredImageAlt f;
     categoryId := categoryId f; authorId := authorId f; status := status f;
     scheduledAt := Some t; isPinned := isPinned f;
     seoTitle := seoTitle f; seoDescription := seoDescription f |}.

Definition handleImageUploaded (imageData : option image) (st : editor) : editor :=
  match imageData with
  | Some img =>
      {| values := set_image (medium img) (altText img) (values st);
         uploadedImage := imageData;
         imageAltText := altText img |}
  | None =>
      {| values := set_image EmptyString EmptyString (values st);
         uploadedImage := imageData;
         imageAltText := EmptyString |}
  end.

Definition handleAltTextChange (alt : string) (st : editor) : editor :=
  {| values := set_alt alt (values st);
     uploadedImage := uploadedImage st;
     imageAltText := alt |}.


Section Clock.

(** '../../utils/timezone' is not part of the sources: its functions are
    taken as they are used. A date is its time value, [None] when invalid. *)
Variable parseLocalTimeToUTC : string -> option Z.
Variable formatForDateTimeInput : string -> string.
Variable toISOString : Z -> string.

(** The effect that populates the form from the loaded article. *)
Definition populate (a : article) (st : editor) : editor :=
  {| values :=
       {| title := a_title a;
          excerpt := Some (or_empty (a_excerpt a));
          content := a_content a;
          featuredImage := Some (or_empty (a_featuredImage a));
          featuredImageAlt := Some (or_empty (a_featuredImageAlt a));
          categoryId := a_category_id a;
          authorId := Some (a_author_id a);
          status := a_status a;
          scheduledAt :=
            Some match truthy (a_scheduledAt a) with
                 | Some t => formatForDateTimeInput t
                 | None => EmptyString
                 end;
          isPinned := Some (default false (a_isPinned a));
          seoTitle := Some (or_empty (a_seoTitle a));
          seoDescription := Some (or_empty (a_seoDescription a)) |};
     uploadedImage := uploadedImage st;
     imageAltText := or_empty (a_featuredImageAlt a) |}.

(** [onSubmit]; [editing] is [isEditing], [now] the time value of
    [getCurrentLocalTime()]. *)
Definition onSubmit (editing : bool) (st : editor) (now : Z) (data : form)
  : submission :=
  let iso :=
    match truthy (scheduledAt data) with
    | Some t =>
        match parseLocalTimeToUTC t with
        | Some d => Some (Some (toISOString d))
        | None => None
        end
    | None => Some None
    end in
  match iso with
  | None => RangeError
  | Some iso =>
      let submit :=
        {| s_title := title data;
           s_excerpt := excerpt data;
           s_content := content data;
           s_featuredImage :=
             default EmptyString
               (or_else (medium <$> uploadedImage st) (truthy (featuredImage data)));
           s_featuredImageAlt :=
             default EmptyString
               (or_else (Some (imageAltText st)) (truthy (featuredImageAlt data)));
           s_categoryId := categoryId data;
           s_authorId := authorId data;
           s_status := status data;
           s_scheduledAt := iso;
           s_isPinned := isPinned data;
           s_seoTitle := seoTitle data;
           s_seoDescription := seoDescription data |} in
      let send := if editing then Update submit else Create submit in
      match status data with
      | Scheduled =>
          match truthy (scheduledAt data) with
          | None => Complain "Please select a scheduled date and time"
          | Some t =>
              match parseLocalTimeToUTC t with
              | Some scheduledDate =>
                  if scheduledDate <=? now
                  then Complain "Scheduled date must be in the future"
                  else send
              | None => send
              end
          end
      | _ => send
      end
  end.

(** [zodResolver(articleSchema)]: whether the values pass the schema. The
    schema bounds lengths counted in UTF-16 code units, which the strings
    here do not give; the resolver is taken as it is used. *)
Variable resolver : form -> bool.

(** [form.handleSubmit(onSubmit)]: [onSubmit] is called with the current
    values when the resolver accepts them. *)
Definition submit (editing : bool) (st : editor) (now : Z) : submission :=
  if resolver (values st) then onSubmit editing st now (values st) else Invalid.

End Clock.

Definition sent_data (s : submission) : option submitData :=
  match s with
  | Create d | Update d => Some d
  | _ => None
  end.

(** Sample data for the editor. *)
Definition demo_parse (s : string) : option Z :=
  if String.eqb s "2030-01-01T10:00" then Some 1893506400000 else None.

Definition demo_iso (t : Z) : string := pretty t.

Definition demo_article : article :=
  {| a_title := "Carnival dates announced";
     a_excerpt := None;
     a_content := "The committee has published the calendar of this season.";
     a_featuredImage := Some "/uploads/carnival-medium.jpg";
     a_featuredImageAlt := None;
     a_category_id := "culture";
     a_author_id := "u17";
     a_status := Published;
     a_scheduledAt := None;
     a_isPinned := None;
     a_seoTitle := None;
     a_seoDescription := None |}.

Definition demo_scheduled : form :=
  set_scheduledAt "2030-01-01T10:00" (set_status Scheduled defaultValues).

(** The checks of [articleSchema], for texts of ASCII characters. *)
Definition demo_resolver (f : form) : bool :=
  let at_most (n : nat) (o : option string) :=
    match o with
    | Some t => (String.length t <=? n)%nat
    | None => true
    end in
  (5 <=? String.length (title f))%nat
  && (50 <=? String.length (content f))%nat
  && (1 <=? String.length (categoryId f))%nat
  && at_most 60%nat (seoTitle f)
  && at_most 160%nat (seoDescription f).

(** The editor once [demo_article] is loaded. *)
Definition demo_editor : editor := populate (fun t => t) demo_article initial.

End Editor.

(** * Properties *)

(** ** [parseInt] reads back the decimal notation of an integer *)

Example parseInt_seconds : parseInt "120" = num_of_Z 120.
Proof. reflexivity. Qed.

Example parseInt_prefix : parseInt " -12px" = num_of_Z (-12).
Proof. reflexivity. Qed.

Example parseInt_hex : parseInt "0x1F" = num_of_Z 31.
Proof. reflexivity. Qed.

Example parseInt_date : parseInt "Wed, 21 Oct 2015 07:28:00 GMT" = NaN.
Proof. reflexivity. Qed.

Example parseInt_no_break_space :
  parseInt (String (ascii_of_nat 160) "7") = num_of_Z 7.
Proof. reflexivity. Qed.

Example demo_article_is_valid :
  Editor.demo_resolver (Editor.values Editor.demo_editor) = true.
Proof. reflexivity. Qed.

Example empty_form_is_invalid : Editor.demo_resolver Editor.defaultValues = false.
Proof. reflexivity. Qed.

Example includes_login : includes "/api/auth/login" "/auth/login" = true.
Proof. reflexivity. Qed.

Lemma digit_value_pretty_char (d : N) :
  (d < 10)%N -> digit_value 10 (pretty_N_char d) = Some (Z.of_N d).
Proof.
  intros Hd.
  assert (d = 0 \/ d = 1 \/ d = 2 \/ d = 3 \/ d = 4 \/ d = 5 \/ d = 6
          \/ d = 7 \/ d = 8 \/ d = 9)%N as Hcases by lia.
  repeat (destruct Hcases as [-> | Hcases]; [reflexivity |]).
  now subst d.
Qed.

Lemma decimal_pretty_go (x : N) (s : string) :
  decimal s = true -> decimal (pretty_N_go x s) = true.
Proof.
  revert s. induction (N.lt_wf_0 x) as [x _ IH]. intros s Hs.
  destruct (N.eq_dec x 0%N) as [-> | Hx].
  - now rewrite pretty_N_go_0.
  - rewrite pretty_N_go_step by lia.
    apply IH; [apply N.div_lt; lia |].
    cbn [decimal]. rewrite Hs, digit_value_pretty_char by (apply N.mod_lt; lia).
    reflexivity.
Qed.

(** The digits of [x] are read on top of the accumulator. *)
Lemma parse_digits_pretty_go (x : N) (s : string) (acc : Z) :
  exists k : Z, 0 <= k /\
    parse_digits 10 (Some acc) (pretty_N_go x s)
    = parse_digits 10 (Some (acc * 10 ^ k + Z.of_N x)) s.
Proof.
  revert s. induction (N.lt_wf_0 x) as [x _ IH]. intros s.
  destruct (N.eq_dec x 0%N) as [-> | Hx].
  - exists 0. rewrite pretty_N_go_0. split; [lia |].
    replace (acc * 10 ^ 0 + Z.of_N 0) with acc by (rewrite Z.pow_0_r; simpl; lia). reflexivity.
  - rewrite pretty_N_go_step by lia.
    destruct (IH (x `div` 10)%N) with (s := String (pretty_N_char (x `mod` 10)) s)
      as (k & Hk & ->); [apply N.div_lt; lia |].
    exists (k + 1). split; [lia |].
    cbn [parse_digits]. rewrite digit_value_pretty_char by (apply N.mod_lt; lia).
    cbn [default]. do 2 f_equal.
    rewrite Z.pow_add_r, N2Z.inj_div, N2Z.inj_mod by lia.
    pose proof (Z.div_mod (Z.of_N x) 10 ltac:(lia)) as Hdm. change (Z.of_N 10) with 10.
    rewrite Z.pow_1_r. unfold id.
    generalize dependent (Z.of_N x `div` 10). generalize dependent (Z.of_N x `mod` 10).
    intros m q ->. ring.
Qed.

Lemma digit_cases (c : ascii) :
  is_Some (digit_value 10 c) ->
  In c ["0"; "1"; "2"; "3"; "4"; "5"; "6"; "7"; "8"; "9"]%char.
Proof.
  intros [d Hd]. revert Hd.
  destruct c as [[] [] [] [] [] [] [] []]; vm_compute; intros ?; try discriminate; tauto.
Qed.

Lemma decimal_head (c : ascii) (s : string) :
  decimal (String c s) = true ->
  In c ["0"; "1"; "2"; "3"; "4"; "5"; "6"; "7"; "8"; "9"]%char /\ decimal s = true.
Proof.
  cbn [decimal]. intros [Hc Hs]%andb_prop. split; [| exact Hs].
  apply digit_cases. now apply bool_decide_eq_true in Hc.
Qed.

(** A string of decimal digits has no white space, sign or hexadecimal
    prefix to strip. *)
Lemma decimal_unsigned (s : string) :
  decimal s = true ->
  trim_start s = s /\ strip_sign s = (1, s) /\ strip_hex_prefix s = (10, s).
Proof.
  destruct s as [| c s]; [now cbn |].
  intros [Hc Hs]%decimal_head.
  assert (s = EmptyString \/ exists c' s', s = String c' s' /\
            In c' ["0"; "1"; "2"; "3"; "4"; "5"; "6"; "7"; "8"; "9"]%char) as Hnext.
  { destruct s as [| c' s']; [now left | right].
    exists c', s'. split; [reflexivity |]. now apply decimal_head in Hs. }
  cbn [In] in Hc.
  destruct Hnext as [-> | (c' & s' & -> & Hc')].
  - repeat (destruct Hc as [<- | Hc]; [now repeat split |]). contradiction.
  - cbn [In] in Hc'.
    repeat (destruct Hc as [<- | Hc];
            [repeat (destruct Hc' as [<- | Hc']; [now repeat split |]);
             contradiction |]).
    contradiction.
Qed.

Lemma parse_digits_start (s : string) :
  decimal s = true -> s <> EmptyString ->
  parse_digits 10 None s = parse_digits 10 (Some 0) s.
Proof.
  destruct s as [| c s]; [congruence |]. intros [Hc _]%decimal_head _.
  cbn [In] in Hc.
  repeat (destruct Hc as [<- | Hc]; [reflexivity |]). contradiction.
Qed.

Lemma parse_digits_pretty (x : N) :
  x <> 0%N -> parse_digits 10 None (pretty_N_go x EmptyString) = Some (Z.of_N x).
Proof.
  intros Hx.
  destruct (parse_digits_pretty_go x EmptyString 0) as (k & _ & Hparse).
  cbn [parse_digits] in Hparse. rewrite Z.mul_0_l, Z.add_0_l in Hparse.
  rewrite parse_digits_start; [exact Hparse | now apply decimal_pretty_go |].
  intros Heq. rewrite Heq in Hparse. cbn in Hparse. injection Hparse. lia.
Qed.

(** [parseInt] of the decimal notation of [z] is [z]. *)
Lemma parseInt_pretty (z : Z) : parseInt (pretty z) = num_of_Z z.
Proof.
  destruct z as [| p | p]; [reflexivity | |].
  - change (pretty (Z.pos p)) with (pretty (N.pos p)).
    unfold pretty, pretty_N. destruct (decide (N.pos p = 0%N)); [discriminate |].
    unfold parseInt.
    destruct (decimal_unsigned _ (decimal_pretty_go (N.pos p) EmptyString eq_refl))
      as (-> & -> & ->).
    now rewrite parse_digits_pretty.
  - change (pretty (Z.neg p)) with (String "-" (pretty (N.pos p))).
    unfold pretty, pretty_N. destruct (decide (N.pos p = 0%N)); [discriminate |].
    unfold parseInt. cbn [trim_start].
    change (is_white_space "-") with false. cbn [strip_sign].
    destruct (decimal_unsigned _ (decimal_pretty_go (N.pos p) EmptyString eq_refl))
      as (_ & _ & ->).
    now rewrite parse_digits_pretty.
Qed.

(** The decimal notation of an integer is a truthy string. *)
Lemma pretty_nonempty (z : Z) : truthy (Some (pretty z)) = Some (pretty z).
Proof.
  pose proof (parseInt_pretty z) as Hparse.
  destruct (pretty z); [discriminate | reflexivity].
Qed.

(** ** Correlation ids *)

Lemma decimal_no_underscore (s : string) :
  decimal s = true -> ~ In "_"%char (list_ascii_of_string s).
Proof.
  induction s as [| c s IH]; [now cbn |].
  intros [Hc Hs]%decimal_head [-> | Hin]; [| now apply IH].
  cbn [In] in Hc. repeat (destruct Hc as [Hc | Hc]; [discriminate |]). contradiction.
Qed.

Lemma pretty_no_underscore (z : Z) : ~ In "_"%char (list_ascii_of_string (pretty z)).
Proof.
  destruct z as [| p | p].
  - now intros [? | []].
  - change (pretty (Z.pos p)) with (pretty (N.pos p)).
    unfold pretty, pretty_N. destruct (decide (N.pos p = 0%N)); [discriminate |].
    now apply decimal_no_underscore, decimal_pretty_go.
  - change (pretty (Z.neg p)) with (String "-" (pretty (N.pos p))).
    unfold pretty, pretty_N. destruct (decide (N.pos p = 0%N)); [discriminate |].
    intros [? | Hin]; [discriminate |].
    revert Hin. now apply decimal_no_underscore, decimal_pretty_go.
Qed.

(** The text before the first underscore is determined. *)
Lemma split_at_underscore (a a' s s' : string) :
  ~ In "_"%char (list_ascii_of_string a) ->
  ~ In "_"%char (list_ascii_of_string a') ->
  a +:+ String "_" s = a' +:+ String "_" s' ->
  a = a'.
Proof.
  revert a'. induction a as [| c a IH]; intros [| c' a'] Ha Ha' Heq;
    cbn in Heq; try reflexivity; injection Heq as Hc Heq.
  - subst c'. exfalso. apply Ha'. now left.
  - subst c. exfalso. apply Ha. now left.
  - subst c'. f_equal. apply IH; [| | assumption].
    + intros Hin. apply Ha. now right.
    + intros Hin. apply Ha'. now right.
Qed.

(** Two ids made at different clock readings differ. *)
Lemma request_id_clock (now now' : Z) (sfx sfx' : string) :
  request_id now sfx = request_id now' sfx' -> now = now'.
Proof.
  unfold request_id. intros Heq.
  change ("req_" +:+ ?x) with (String "r" (String "e" (String "q" (String "_" x)))) in Heq.
  injection Heq as Heq.
  apply split_at_underscore in Heq; [| apply pretty_no_underscore ..].
  now apply (inj pretty).
Qed.

(** ** The sliding window *)

(** [slice(-n)] keeps a suffix of at most [n] elements. *)
Lemma slice_last_suffix {A} (n : nat) (l : list A) :
  exists old, l = old ++ slice_last n l /\ length (slice_last n l) = Nat.min n (length l).
Proof.
  unfold slice_last. exists (take (length l - n) l). split.
  - now rewrite take_drop.
  - rewrite length_drop. lia.
Qed.

Lemma cleanup_length (now : Z) (w : world) :
  (length (requestQueue (cleanupOldRequests now w)) <= length (requestQueue w))%nat.
Proof. apply List.filter_length_le. Qed.

(** What an earlier cleanup removed is no longer fresh later. *)
Lemma fresh_after_cleanup (t now : Z) (q : list queue_record) :
  now <= t ->
  List.filter (fresh t) (List.filter (fresh now) q) = List.filter (fresh t) q.
Proof.
  intros Hle. induction q as [| rec q IH]; [reflexivity |]. cbn [List.filter].
  destruct (fresh now rec) eqn:Hnow, (fresh t rec) eqn:Ht; cbn [List.filter];
    rewrite ?Ht, ?IH; try reflexivity.
  unfold fresh in *. apply Z.ltb_lt in Ht. apply Z.ltb_ge in Hnow. lia.
Qed.

Lemma expired_window (t : Z) (q : list queue_record) :
  Forall (fun rec => windowMs <= t - timestamp rec) q -> List.filter (fresh t) q = [].
Proof.
  induction 1 as [| rec q Hrec _ IH]; [reflexivity |]. cbn [List.filter].
  unfold fresh at 1. now replace (_ <? _) with false by (symmetry; apply Z.ltb_ge; lia).
Qed.

(** ** The request interceptor *)

(** The gate decides; a request that passes is recorded and tagged. *)
Lemma request_interceptor_spec (now : Z) (sfx : string) (w : world) (r : request) :
  let endpoint := default EmptyString (truthy (url r)) in
  let w1 := cleanupOldRequests now w in
  if negb (is_critical endpoint)
     && (maxRequests <=? Z.of_nat (length (requestQueue w1)))
  then request_interceptor now sfx w r = (w1, inl rate_limit_error)
  else exists r',
      request_interceptor now sfx w r = (addToRequestQueue now endpoint w1, inr r')
      /\ url r' = url r
      /\ _retry r' = _retry r
      /\ req_metadata r' = Some {| startTime := now; meta_endpoint := endpoint |}
      /\ headers r' !! "X-Request-ID" = Some (request_id now sfx)
      /\ headers r' !! "Authorization"
         = match truthy (localStorage w !! "auth_token") with
           | Some token => Some ("Bearer " +:+ token)
           | None => headers r !! "Authorization"
           end.
Proof.
  intros endpoint w1. unfold request_interceptor, shouldRateLimit.
  fold endpoint. fold w1.
  destruct (is_critical endpoint); cbn [negb andb];
    [| destruct (maxRequests <=? Z.of_nat (length (requestQueue w1))); [reflexivity |]].
  all: eexists; split; [reflexivity |].
  all: change (localStorage (addToRequestQueue now endpoint w1)) with (localStorage w).
  all: destruct (truthy (localStorage w !! "auth_token"));
    cbn [url _retry req_metadata set_header set_metadata headers].
  all: do 3 (split; [reflexivity |]); split; [apply lookup_insert_eq |].
  all: rewrite lookup_insert_ne by discriminate.
  all: try apply lookup_insert_eq; reflexivity.
Qed.

(** Below the capacity every request passes. *)
Lemma request_interceptor_passes (now : Z) (sfx : string) (w : world) (r : request) :
  Z.of_nat (length (requestQueue w)) < maxRequests ->
  exists r',
    request_interceptor now sfx w r
      = (addToRequestQueue now (default EmptyString (truthy (url r))) (cleanupOldRequests now w),
         inr r')
    /\ url r' = url r /\ _retry r' = _retry r.
Proof.
  intros Hroom. pose proof (request_interceptor_spec now sfx w r) as Hspec.
  pose proof (cleanup_length now w) as Hlen. cbn zeta in Hspec.
  replace (maxRequests <=? _) with false in Hspec
    by (symmetry; apply Z.leb_gt; lia).
  rewrite andb_false_r in Hspec. destruct Hspec as (r' & ? & ? & ? & _). eauto.
Qed.

(** A request let through adds one record that is still fresh at [t]. *)
Lemma interceptor_fresh_count (t now : Z) (sfx : string) (w : world) (r : request) :
  t - windowMs < now <= t ->
  let run := request_interceptor now sfx w r in
  length (List.filter (fresh t) (requestQueue run.1))
  = (length (List.filter (fresh t) (requestQueue w))
     + if let_through run.2 then 1 else 0)%nat.
Proof.
  intros Hnow. pose proof (request_interceptor_spec now sfx w r) as Hspec.
  cbn zeta in *.
  destruct (negb _ && _); [| destruct Hspec as (r' & Hspec & _)]; rewrite Hspec;
    cbn [fst snd let_through requestQueue cleanupOldRequests addToRequestQueue
         set_requestQueue].
  - rewrite (fresh_after_cleanup t now) by lia. lia.
  - rewrite List.filter_app, length_app, (fresh_after_cleanup t now) by lia.
    cbn [List.filter]. unfold fresh at 2. cbn [timestamp].
    now replace (t - now <? windowMs) with true by (symmetry; apply Z.ltb_lt; lia).
Qed.

Lemma intercept_all_fresh_count (t : Z) (calls : list (Z * string * request))
      (w : world) :
  Forall (fun c => t - windowMs < c.1.1 <= t) calls ->
  Forall (fun res => let_through res = true) (intercept_all calls w).2 ->
  length (List.filter (fresh t) (requestQueue (intercept_all calls w).1))
  = (length (List.filter (fresh t) (requestQueue w)) + length calls)%nat.
Proof.
  intros Hclocks. revert w.
  induction Hclocks as [| [[now sfx] r] calls Hnow _ IH]; intros w Hpass.
  - cbn. lia.
  - cbn [intercept_all] in *.
    pose proof (interceptor_fresh_count t now sfx w r Hnow) as Hstep.
    cbn zeta in Hstep.
    destruct (request_interceptor now sfx w r) as [w1 res].
    specialize (IH w1). destruct (intercept_all calls w1) as [w2 rest].
    cbn [fst snd] in *. apply Forall_cons in Hpass as [Hres Hrest].
    rewrite IH, Hstep, Hres by assumption. cbn [length]. lia.
Qed.

(** ** The branches of the error handler *)

Lemma status_is_true (e : error) (code : Z) :
  status_is e code = true <->
  exists resp, err_response e = Some resp /\ status resp = code.
Proof.
  unfold status_is. destruct (err_response e) as [resp |].
  - rewrite Z.eqb_eq. split; [eauto | now intros (? & [= <-] & ?)].
  - split; [discriminate | now intros (? & ? & ?)].
Qed.

Lemma status_is_other (e : error) (resp : response) (code : Z) :
  err_response e = Some resp -> status resp <> code -> status_is e code = false.
Proof. unfold status_is. intros -> Hne. now apply Z.eqb_neq. Qed.

Lemma status_is_absent (e : error) (code : Z) :
  err_response e = None -> status_is e code = false.
Proof. unfold status_is. now intros ->. Qed.

(** The code after the retry branches always rejects, with the counter at 0. *)
Lemma terminal_rejection_resets (w : world) (e : error) :
  exists w' x, terminal_rejection w e = (w', Reject x) /\ retryCount w' = 0.
Proof.
  unfold terminal_rejection. destruct (err_response e) as [resp |]; [| now eauto].
  repeat case_match; do 2 eexists; (split; [reflexivity |]); try reflexivity.
  now destruct (error_message (data resp)).
Qed.

Section Branches.

Variable config : environment.

(** A transport failure that is not locally flagged reaches the first
    retry branch. *)
Lemma on_rejected_network (rnd : Q) (w : world) (e : error) (r : request) :
  isRateLimit e = false -> err_response e = None -> err_config e = Some r ->
  on_rejected config rnd w e =
    if negb (_retry r) && (retryCount w <? maxRetries config) then
      (emit (Toast ToastInfo (ConnectionRetrying (retryCount w + 1) (maxRetries config)))
         (set_retryCount (retryCount w + 1) w),
       Reissue (Num (inject_Z (baseDelay config) * 2 ^ (retryCount w + 1 - 1)
                     + rnd * 1000)%Q) (mark_retry r))
    else terminal_rejection w e.
Proof.
  intros Hlocal Hresp Hreq. unfold on_rejected.
  rewrite Hlocal, !status_is_absent by assumption.
  unfold network_guard, server_guard. rewrite Hresp, Hreq.
  now destruct (negb (_retry r) && (retryCount w <? maxRetries config)).
Qed.

(** A 5xx response reaches the second retry branch. *)
Lemma on_rejected_server (rnd : Q) (w : world) (e : error) (r : request)
      (resp : response) :
  isRateLimit e = false -> err_response e = Some resp -> 500 <= status resp ->
  err_config e = Some r ->
  on_rejected config rnd w e =
    if negb (_retry r) && (retryCount w <? maxRetries config) then
      (emit (Toast ToastError (ServerRetrying (retryCount w + 1) (maxRetries config)))
         (set_retryCount (retryCount w + 1) w),
       Reissue (Num (inject_Z (baseDelay config) * 2 ^ (retryCount w + 1 - 1))%Q)
         (mark_retry r))
    else terminal_rejection w e.
Proof.
  intros Hlocal Hresp Hstatus Hreq. unfold on_rejected.
  rewrite Hlocal, !(status_is_other e resp) by (assumption || lia).
  unfold network_guard, server_guard. rewrite Hresp, Hreq.
  replace (status resp =? 0) with false by (symmetry; apply Z.eqb_neq; lia).
  replace (500 <=? status resp) with true by (symmetry; apply Z.leb_le; lia).
  now destruct (negb (_retry r) && (retryCount w <? maxRetries config)).
Qed.

Lemma on_rejected_429 (rnd : Q) (w : world) (e : error) :
  isRateLimit e = false -> status_is e 429 = true ->
  on_rejected config rnd w e =
    let delay :=
      match truthy (err_response e ≫= fun r => resp_headers r !! "retry-after") with
      | Some retryAfter => num_mul (parseInt retryAfter) (num_of_Z 1000)
      | None => num_of_Z 5000
      end in
    (set_requestQueue (slice_last 50 (requestQueue w))
       (emit (Toast ToastError (RateLimitRetrying (num_div delay (num_of_Z 1000)))) w),
     Reissue delay (default empty_request (err_config e))).
Proof.
  intros Hlocal [resp [Hresp Hstatus]]%status_is_true. unfold on_rejected.
  rewrite Hlocal, !(status_is_other e resp) by (assumption || lia).
  unfold status_is. rewrite Hresp, Hstatus. reflexivity.
Qed.

Lemma on_rejected_404 (rnd : Q) (w : world) (e : error) :
  isRateLimit e = false -> status_is e 404 = true ->
  on_rejected config rnd w e =
    let endpoint := default EmptyString (request_endpoint (err_config e)) in
    (emit (if includes endpoint "/admin/" then ConsoleWarn endpoint
           else Toast ToastError (Text "Resource not found.")) w,
     Reject (Failed e)).
Proof.
  intros Hlocal [resp [Hresp Hstatus]]%status_is_true. unfold on_rejected.
  rewrite Hlocal, !(status_is_other e resp) by (assumption || lia).
  unfold status_is. rewrite Hresp, Hstatus. cbn -[includes].
  now destruct (includes _ "/admin/").
Qed.

End Branches.

(** A re-issue carries the request of the error, possibly marked, and leaves
    the store alone. *)
Lemma reissue_frame (config : environment) (rnd : Q) (w w1 : world) (e : error)
      (d : number) (r0 r1 : request) :
  on_rejected config rnd w e = (w1, Reissue d r1) ->
  err_config e = Some r0 ->
  (r1 = r0 \/ r1 = mark_retry r0) /\ localStorage w1 = localStorage w.
Proof.
  intros Hrun Hreq. unfold on_rejected in Hrun. rewrite Hreq in Hrun.
  destruct (terminal_rejection_resets w e) as (wg & xg & Hgive & _).
  destruct (isRateLimit e); [discriminate |].
  destruct (status_is e 401); [discriminate |].
  destruct (status_is e 403); [discriminate |].
  destruct (status_is e 404); [discriminate |].
  destruct (status_is e 429).
  { injection Hrun as <- _ <-. now split; [left |]. }
  destruct (network_guard config w e) as [[] |]; [| | discriminate].
  { injection Hrun as <- _ <-. now split; [right |]. }
  destruct (server_guard config w e) as [[] |]; [| | discriminate].
  { injection Hrun as <- _ <-. now split; [right |]. }
  rewrite Hgive in Hrun. discriminate.
Qed.


(** ** One pass of the client *)

Section Client.

Variable config : environment.

(** The request interceptor rejects: nothing is sent. *)
Lemma apiClient_limited (a : attempt) (script : list attempt) (w w1 : world)
      (r : request) :
  request_interceptor (clock a) (suffix a) w r = (w1, inl rate_limit_error) ->
  apiClient config (a :: script) w r
  = (toast_error "Too many requests. Please slow down and try again in a moment." w1,
     Some (Rejected (Failed rate_limit_error))).
Proof. intros Hgate. cbn [apiClient]. now rewrite Hgate. Qed.

(** The request is sent and fails. *)
Lemma apiClient_failure (a : attempt) (script : list attempt) (w w1 : world)
      (r r1 : request) :
  request_interceptor (clock a) (suffix a) w r = (w1, inr r1) ->
  match reply a with
  | Some resp => validateStatus (status resp) = false
  | None => True
  end ->
  apiClient config (a :: script) w r
  = match on_rejected config (random a) (emit (Send r1) w1)
            (transport_error r1 (reply a)) with
    | (w2, Reject x) => (w2, Some (Rejected x))
    | (w2, Reissue delay r2) => apiClient config script (emit (Sleep delay) w2) r2
    end.
Proof.
  intros Hgate Hreply. cbn [apiClient]. rewrite Hgate.
  destruct (reply a) as [resp |]; [rewrite Hreply |]; reflexivity.
Qed.

(** The request is sent and answered with a 2xx status. *)
Lemma apiClient_success (a : attempt) (script : list attempt) (w w1 : world)
      (r r1 : request) (resp : response) :
  request_interceptor (clock a) (suffix a) w r = (w1, inr r1) ->
  reply a = Some resp ->
  validateStatus (status resp) = true ->
  apiClient config (a :: script) w r
  = (set_retryCount 0 (emit (Send r1) w1), Some (Resolved resp)).
Proof.
  intros Hgate Hreply Hok. cbn [apiClient]. now rewrite Hgate, Hreply, Hok.
Qed.

End Client.

(** ** The retry policy *)

(** C1. A failed request without a response (NetworkError), or with a status
    of 500 or more (ServerError), is re-issued exactly when its [_retry] flag
    is unset and [retryCount] is below [maxRetries]. The re-issued request has
    the flag set, [retryCount] is one more, and the delay is
    [baseDelay * 2^(retryCount - 1)] for the new [retryCount], plus a jitter in
    [0, 1000) for a NetworkError and nothing for a ServerError. *)
Theorem retry_policy (config : environment) (rnd : Q) (w : world) (e : error)
        (r : request) :
  isRateLimit e = false ->
  err_config e = Some r ->
  (err_response e = None
   \/ exists resp, err_response e = Some resp /\ 500 <= status resp) ->
  (0 <= rnd < 1)%Q ->
  ((exists w' d r', on_rejected config rnd w e = (w', Reissue d r'))
   <-> _retry r = false /\ retryCount w < maxRetries config)
  /\ forall w' d r',
       on_rejected config rnd w e = (w', Reissue d r') ->
       r' = mark_retry r /\ _retry r' = true
       /\ retryCount w' = retryCount w + 1
       /\ match err_response e with
          | None =>
              exists jitter, (0 <= jitter < 1000)%Q /\
                d = Num (inject_Z (baseDelay config) * 2 ^ (retryCount w' - 1) + jitter)%Q
          | Some _ =>
              d = Num (inject_Z (baseDelay config) * 2 ^ (retryCount w' - 1))%Q
          end.
Proof.
  intros Hlocal Hreq Hclass Hrnd.
  assert (negb (_retry r) && (retryCount w <? maxRetries config) = true
          <-> _retry r = false /\ retryCount w < maxRetries config) as Hguard.
  { rewrite andb_true_iff, negb_true_iff, Z.ltb_lt. tauto. }
  destruct (terminal_rejection_resets w e) as (wg & xg & Hgive & _).
  destruct Hclass as [Hresp | (resp & Hresp & Hstatus)].
  - rewrite (on_rejected_network config rnd w e r) by assumption.
    rewrite Hresp.
    destruct (negb (_retry r) && (retryCount w <? maxRetries config)).
    + split; [split; [intros _; now apply Hguard | intros _; eauto] |].
      intros w' d r' [= <- <- <-]. repeat split.
      exists (rnd * 1000)%Q. split; [lra | reflexivity].
    + rewrite Hgive. split; [split; [now intros (? & ? & ? & ?) | intros H] |].
      * apply Hguard in H. discriminate.
      * intros ? ? ? [=].
  - rewrite (on_rejected_server config rnd w e r resp) by assumption.
    rewrite Hresp.
    destruct (negb (_retry r) && (retryCount w <? maxRetries config)).
    + split; [split; [intros _; now apply Hguard | intros _; eauto] |].
      intros w' d r' [= <- <- <-]. now repeat split.
    + rewrite Hgive. split; [split; [now intros (? & ? & ? & ?) | intros H] |].
      * apply Hguard in H. discriminate.
      * intros ? ? ? [=].
Qed.

Lemma retry_policy_witness :
  exists w' d r',
    on_rejected Sample.defaults (1 # 2) (Sample.session 0 0)
      (Sample.unreachable "/data/x") = (w', Reissue d r').
Proof.
  destruct (retry_policy Sample.defaults (1 # 2) (Sample.session 0 0)
              (Sample.unreachable "/data/x") (Sample.tagged 0 "/data/x"))
    as [[_ Hretry] _].
  - reflexivity.
  - reflexivity.
  - left. reflexivity.
  - split; [unfold Qle | unfold Qlt]; simpl; lia.
  - apply Hretry. split; [reflexivity | vm_compute; reflexivity].
Defined.

(** C2 does not hold as stated. With [maxRetries = 3], [baseDelay = 1000], an
    empty window and three transport failures in a row, the request is sent
    twice and there are not three delays: the retried request carries
    [_retry = true], so its failure is not retried. *)
Lemma three_failures_do_not_give_three_retries :
  let run := apiClient Sample.defaults
               [Sample.offline 0 (1 # 4); Sample.offline 1250 (1 # 2);
                Sample.offline 3750 (3 # 4)]
               (Sample.session 0 0) (Sample.get "/data/x") in
  length (sent (trace run.1)) = 2%nat
  /\ ~ (exists d1 d2 d3, delays (trace run.1) = [d1; d2; d3]).
Proof.
  split; [now vm_compute |].
  intros (d1 & d2 & d3 & Hdelays). vm_compute in Hdelays. discriminate.
Qed.

(** C2, amended. With [maxRetries = 3], [baseDelay = 1000], [retryCount = 0]
    and an empty window, a fresh request whose first two passes get no answer
    is retried once, after [1000 + jitter] milliseconds with a jitter in
    [0, 1000), and is then rejected with the network error; [retryCount] is
    back at 0. A third outcome of the transport is never asked for. *)
Theorem network_failure_is_retried_once (config : environment) (w : world)
        (r : request) (a1 a2 : attempt) (script : list attempt) :
  maxRetries config = 3 ->
  baseDelay config = 1000 ->
  retryCount w = 0 ->
  requestQueue w = [] ->
  _retry r = false ->
  reply a1 = None ->
  reply a2 = None ->
  (0 <= random a1 < 1)%Q ->
  exists w' e d jitter,
    apiClient config (a1 :: a2 :: script) w r = (w', Some (Rejected (Failed e)))
    /\ isRateLimit e = false
    /\ err_response e = None
    /\ message e = "Network error. Please check your internet connection."
    /\ length (sent (trace w')) = (length (sent (trace w)) + 2)%nat
    /\ delays (trace w') = delays (trace w) ++ [Num d]
    /\ (d == 1000 + jitter)%Q
    /\ (0 <= jitter < 1000)%Q
    /\ retryCount w' = 0.
Proof.
  intros Hmax Hbase Hcount Hqueue Hflag Hfail1 Hfail2 Hrnd.
  (* first pass *)
  destruct (request_interceptor_passes (clock a1) (suffix a1) w r)
    as (r1 & Hgate1 & _ & Hflag1); [rewrite Hqueue; now cbn |].
  rewrite (apiClient_failure config a1 _ w _ r r1 Hgate1) by now rewrite Hfail1.
  rewrite Hfail1, (on_rejected_network config _ _ _ r1) by reflexivity.
  cbn [retryCount emit addToRequestQueue cleanupOldRequests set_requestQueue].
  rewrite Hflag1, Hflag, Hcount, Hmax, Hbase. cbn [negb andb Z.ltb Z.compare].
  (* second pass *)
  match goal with |- context [apiClient config _ ?w2 _] => set (w2' := w2) end.
  destruct (request_interceptor_passes (clock a2) (suffix a2) w2' (mark_retry r1))
    as (r2 & Hgate2 & _ & Hflag2).
  { subst w2'. cbn. rewrite Hqueue. now cbn. }
  rewrite (apiClient_failure config a2 _ w2' _ _ r2 Hgate2) by now rewrite Hfail2.
  rewrite Hfail2, (on_rejected_network config _ _ _ r2) by reflexivity.
  rewrite Hflag2. cbn [mark_retry _retry negb andb].
  unfold terminal_rejection. cbn [err_response transport_error].
  do 2 eexists. exists (inject_Z 1000 * 2 ^ (0 + 1 - 1) + random a1 * 1000)%Q.
  exists (random a1 * 1000)%Q.
  split; [reflexivity |]. do 3 (split; [reflexivity |]).
  subst w2'. cbn [trace toast_error emit set_retryCount addToRequestQueue
                  cleanupOldRequests set_requestQueue retryCount].
  unfold sent, delays. rewrite !omap_app, !length_app. cbn.
  rewrite !app_nil_r. repeat split; try lia; try lra.
Qed.

Lemma network_failure_is_retried_once_witness :
  exists w' e,
    apiClient Sample.defaults
      [Sample.offline 0 (1 # 4); Sample.offline 1250 (1 # 2); Sample.offline 3750 (3 # 4)]
      (Sample.session 0 0) (Sample.get "/data/x")
    = (w', Some (Rejected (Failed e)))
    /\ length (delays (trace w')) = 1%nat.
Proof.
  destruct (network_failure_is_retried_once Sample.defaults (Sample.session 0 0)
              (Sample.get "/data/x") (Sample.offline 0 (1 # 4))
              (Sample.offline 1250 (1 # 2)) [Sample.offline 3750 (3 # 4)])
    as (w' & e & d & jitter & Hrun & _ & _ & _ & _ & Hdelays & _).
  - reflexivity.
  - reflexivity.
  - reflexivity.
  - reflexivity.
  - reflexivity.
  - reflexivity.
  - reflexivity.
  - split; [unfold Qle | unfold Qlt]; simpl; lia.
  - exists w', e. split; [exact Hrun |]. rewrite Hdelays. reflexivity.
Defined.

(** ** The counter after terminal outcomes *)

(** A 2xx response sets the counter to 0. *)
Lemma on_fulfilled_resets (w : world) (r : response) :
  retryCount (on_fulfilled w r).1 = 0.
Proof. reflexivity. Qed.

(** The branches for the local rate limit, 401, 403 and 404 return before
    the line that sets [retryCount] to 0: the counter keeps its value. *)
Lemma early_return_keeps_retryCount (config : environment) (rnd : Q) (w : world)
      (e : error) :
  isRateLimit e = true \/ status_is e 401 = true \/ status_is e 403 = true
  \/ status_is e 404 = true ->
  exists w', on_rejected config rnd w e = (w', Reject (Failed e))
             /\ retryCount w' = retryCount w.
Proof.
  intros Hearly. unfold on_rejected.
  destruct (isRateLimit e); [eexists; split; reflexivity |].
  destruct (status_is e 401).
  { eexists; split; [reflexivity |]. now destruct (negb _). }
  destruct (status_is e 403); [eexists; split; reflexivity |].
  destruct (status_is e 404).
  { eexists; split; [reflexivity |]. now destruct (includes _ "/admin/"). }
  now destruct Hearly as [? | [? | [? | ?]]].
Qed.

(** C3 at a failing input. A request gets no answer, is retried
    ([retryCount = 1]) and is then answered 401: the call is rejected as
    Unauthorized and [retryCount] is still 1, not 0. *)
Theorem retryCount_survives_unauthorized :
  let run := apiClient Sample.defaults
               [Sample.offline 0 (1 # 4); Sample.answer 1250 401 ∅]
               (Sample.session 0 0) (Sample.get "/articles") in
  (exists e, run.2 = Some (Rejected (Failed e)) /\ status_is e 401 = true)
  /\ retryCount run.1 = 1.
Proof. split; [eexists; split |]; now vm_compute. Qed.

(** ** Server-side rate limiting *)

(** C4. A response with status 429 is always retried, whatever [retryCount],
    [maxRetries] and the [_retry] flag are. The delay is 5000 ms without a
    [retry-after] header and 1000 times its value when the header holds an
    integer of seconds whose milliseconds a timer takes (0 to [timer_max]; in
    that range the doubles of the code are exact); the window is cut down to
    its last 50 records. *)
Theorem server_rate_limit_always_retries (config : environment) (rnd : Q)
        (w : world) (e : error) (resp : response) :
  isRateLimit e = false ->
  err_response e = Some resp ->
  status resp = 429 ->
  exists w' delay,
    on_rejected config rnd w e
      = (w', Reissue delay (default empty_request (err_config e)))
    /\ (resp_headers resp !! "retry-after" = None -> delay = Num 5000)
    /\ (forall seconds : Z,
          0 <= seconds * 1000 <= timer_max ->
          resp_headers resp !! "retry-after" = Some (pretty seconds) ->
          delay = Num (inject_Z seconds * 1000))
    /\ requestQueue w' = slice_last 50 (requestQueue w)
    /\ (exists old, requestQueue w = old ++ requestQueue w')
    /\ length (requestQueue w') = Nat.min 50 (length (requestQueue w)).
Proof.
  intros Hlocal Hresp Hstatus.
  rewrite on_rejected_429
    by (try apply status_is_true; eauto).
  rewrite Hresp. cbn [mbind option_bind].
  destruct (slice_last_suffix 50 (requestQueue w)) as (old & Hold & Hlen).
  do 2 eexists. split; [reflexivity |]. cbn [requestQueue set_requestQueue].
  repeat split; eauto.
  - now intros ->.
  - intros seconds _ ->. now rewrite pretty_nonempty, parseInt_pretty.
Qed.

Lemma server_rate_limit_always_retries_witness :
  exists w',
    on_rejected Sample.defaults 0 (Sample.session 120 0)
      (Sample.failure 429 "/data/y" {[ "retry-after" := "2" ]})
    = (w', Reissue (Num (inject_Z 2 * 1000)) (Sample.tagged 0 "/data/y"))
    /\ length (requestQueue w') = 50%nat.
Proof.
  destruct (server_rate_limit_always_retries Sample.defaults 0 (Sample.session 120 0)
              (Sample.failure 429 "/data/y" {[ "retry-after" := "2" ]})
              {| status := 429; resp_headers := {[ "retry-after" := "2" ]}; data := None |})
    as (w' & delay & Hrun & _ & Hheader & _ & _ & Hlength).
  - reflexivity.
  - reflexivity.
  - reflexivity.
  - exists w'. rewrite <- (Hheader 2).
    + split; [exact Hrun | exact Hlength].
    + unfold timer_max. lia.
    + vm_compute. reflexivity.
Defined.

(** Any number of 429 answers in a row is retried: a request that starts
    below the capacity of the window is sent once per 429 answer and once
    more, and resolves with the 2xx answer that follows. *)
Lemma server_rate_limit_run (config : environment) (limited : list attempt)
      (ok : attempt) (script : list attempt) (resp : response) :
  Forall (fun a => exists busy, reply a = Some busy /\ status busy = 429) limited ->
  reply ok = Some resp ->
  validateStatus (status resp) = true ->
  forall (w : world) (r : request),
    Z.of_nat (length (requestQueue w)) < maxRequests ->
    exists w',
      apiClient config (limited ++ ok :: script) w r = (w', Some (Resolved resp))
      /\ length (delays (trace w')) = (length (delays (trace w)) + length limited)%nat
      /\ length (sent (trace w')) = (length (sent (trace w)) + length limited + 1)%nat.
Proof.
  intros Hlimited Hok Hstatus.
  induction Hlimited as [| a limited (busy & Hreply & Hbusy) _ IH]; intros w r Hroom.
  - destruct (request_interceptor_passes (clock ok) (suffix ok) w r Hroom)
      as (r1 & Hgate & _).
    cbn [app]. rewrite (apiClient_success config ok script w _ r r1 resp Hgate Hok Hstatus).
    eexists. split; [reflexivity |].
    cbn [trace set_retryCount emit addToRequestQueue cleanupOldRequests set_requestQueue].
    unfold delays, sent. rewrite !omap_app, !length_app. cbn. lia.
  - destruct (request_interceptor_passes (clock a) (suffix a) w r Hroom)
      as (r1 & Hgate & _).
    cbn [app]. rewrite (apiClient_failure config a _ w _ r r1 Hgate)
      by (rewrite Hreply, Hbusy; reflexivity).
    rewrite on_rejected_429
      by (try apply status_is_true; rewrite Hreply; cbn; eauto).
    cbn zeta. cbn [err_config transport_error default].
    match goal with |- context [apiClient config _ ?w2 _] => set (w2' := w2) end.
    destruct (IH w2' r1) as (w' & Hrun & Hdelays & Hsent).
    { subst w2'. cbn [requestQueue emit set_requestQueue].
      destruct (slice_last_suffix 50 (requestQueue
                  (emit (Send r1) (addToRequestQueue (clock a) (default EmptyString (truthy (url r)))
                     (cleanupOldRequests (clock a) w))))) as (_ & _ & Hlen).
      cbn [requestQueue emit] in Hlen. unfold id in *. rewrite Hlen.
      unfold maxRequests. lia. }
    exists w'. split; [exact Hrun |]. rewrite Hdelays, Hsent. subst w2'.
    cbn [trace set_retryCount emit addToRequestQueue cleanupOldRequests set_requestQueue].
    unfold delays, sent. rewrite !omap_app, !length_app. cbn. lia.
Qed.

(** C10. Handling a response with status 429 leaves [retryCount] as it is. *)
Theorem server_rate_limit_keeps_retryCount (config : environment) (rnd : Q)
        (w : world) (e : error) :
  isRateLimit e = false ->
  status_is e 429 = true ->
  retryCount (on_rejected config rnd w e).1 = retryCount w.
Proof. intros Hlocal H429. now rewrite on_rejected_429. Qed.

Lemma server_rate_limit_keeps_retryCount_witness :
  retryCount
    (on_rejected Sample.defaults 0 (set_retryCount 2 (Sample.session 5 0))
       (Sample.failure 429 "/data/y" ∅)).1 = 2.
Proof.
  apply (server_rate_limit_keeps_retryCount Sample.defaults 0
           (set_retryCount 2 (Sample.session 5 0)) (Sample.failure 429 "/data/y" ∅));
    reflexivity.
Defined.

(** ** Admission *)

(** C5. A request whose endpoint contains [/auth/login], [/auth/refresh] or
    [/health] passes the request interceptor whatever the window holds, and
    is recorded at the end of the purged window. *)
Theorem critical_endpoints_always_pass (now : Z) (sfx : string) (w : world)
        (r : request) :
  let endpoint := default EmptyString (truthy (url r)) in
  includes endpoint "/auth/login" = true
  \/ includes endpoint "/auth/refresh" = true
  \/ includes endpoint "/health" = true ->
  exists w' r',
    request_interceptor now sfx w r = (w', inr r')
    /\ requestQueue w'
       = List.filter (fresh now) (requestQueue w)
           ++ [{| timestamp := now; endpoint := endpoint |}].
Proof.
  intros endpoint Hcritical.
  assert (is_critical endpoint = true) as Hallowed.
  { unfold is_critical, criticalEndpoints. cbn [existsb].
    destruct Hcritical as [-> | [-> | ->]]; now rewrite ?orb_true_r. }
  pose proof (request_interceptor_spec now sfx w r) as Hspec. cbn zeta in Hspec.
  fold endpoint in Hspec. rewrite Hallowed in Hspec.
  destruct Hspec as (r' & -> & _). now eauto.
Qed.

Lemma critical_endpoints_always_pass_witness :
  exists w' r',
    request_interceptor 1 "k3x9q2m1z" (Sample.session 500 0) (Sample.get "/auth/login")
    = (w', inr r')
    /\ length (requestQueue w') = 501%nat.
Proof.
  destruct (critical_endpoints_always_pass 1 "k3x9q2m1z" (Sample.session 500 0)
              (Sample.get "/auth/login"))
    as (w' & r' & Hrun & Hqueue).
  - left. vm_compute. reflexivity.
  - exists w', r'. split; [exact Hrun |]. rewrite Hqueue. vm_compute. reflexivity.
Defined.

(** C6. After 200 requests let through at times within one window before
    [t], a request to a non-critical endpoint at [t] is rejected with the
    error marked [isRateLimit], and nothing is sent for it. Once every record
    of the window is at least [windowMs] old, the request passes again. *)
Theorem window_capacity (config : environment) (calls : list (Z * string * request))
        (w : world) (t : Z) (a : attempt) (script : list attempt) (r : request) :
  length calls = 200%nat ->
  Forall (fun c => t - windowMs < c.1.1 <= t) calls ->
  Forall (fun res => let_through res = true) (intercept_all calls w).2 ->
  is_critical (default EmptyString (truthy (url r))) = false ->
  clock a = t ->
  let w1 := (intercept_all calls w).1 in
  exists w2,
    apiClient config (a :: script) w1 r
      = (w2, Some (Rejected (Failed rate_limit_error)))
    /\ isRateLimit rate_limit_error = true
    /\ sent (trace w2) = sent (trace w1)
    /\ forall (t' : Z) (sfx : string),
         Forall (fun rec => windowMs <= t' - timestamp rec) (requestQueue w2) ->
         exists w3 r', request_interceptor t' sfx w2 r = (w3, inr r').
Proof.
  intros Hcount Hclocks Hpass Hplain Hclock w1.
  pose proof (intercept_all_fresh_count t calls w Hclocks Hpass) as Hfresh.
  fold w1 in Hfresh.
  pose proof (request_interceptor_spec t (suffix a) w1 r) as Hgate.
  cbn zeta in Hgate. rewrite Hplain in Hgate.
  replace (maxRequests <=? _) with true in Hgate.
  2:{ symmetry. apply Z.leb_le. cbn [cleanupOldRequests requestQueue set_requestQueue].
      change (List.filter _ (requestQueue w1))
        with (List.filter (fresh t) (requestQueue w1)).
      unfold maxRequests. lia. }
  cbn [negb andb] in Hgate. rewrite <- Hclock in Hgate.
  rewrite (apiClient_limited config a script w1 _ r Hgate). rewrite Hclock.
  eexists. split; [reflexivity |]. split; [reflexivity |]. split.
  - cbn [trace toast_error emit cleanupOldRequests set_requestQueue].
    unfold sent. rewrite omap_app. cbn. apply app_nil_r.
  - intros t' sfx Hold.
    pose proof (request_interceptor_spec t' sfx
                  (toast_error "Too many requests. Please slow down and try again in a moment."
                     (cleanupOldRequests t w1)) r) as Hnext.
    cbn zeta in Hnext. rewrite Hplain in Hnext.
    replace (maxRequests <=? _) with false in Hnext.
    + destruct Hnext as (r' & Hnext & _). eauto.
    + symmetry. apply Z.leb_gt.
      cbn [cleanupOldRequests requestQueue set_requestQueue toast_error emit] in *.
      change (List.filter _ (List.filter ?f ?q))
        with (List.filter (fresh t') (List.filter f q)).
      rewrite (expired_window t') by assumption. now cbn.
Qed.

Lemma window_capacity_witness :
  exists w2,
    apiClient Sample.defaults [Sample.offline 59999 0]
      (intercept_all (Sample.burst 200 0) (Sample.session 0 0)).1 (Sample.get "/articles")
    = (w2, Some (Rejected (Failed rate_limit_error)))
    /\ exists w3 r',
        request_interceptor 60000 "p7w4n8c2d" w2 (Sample.get "/articles") = (w3, inr r').
Proof.
  destruct (window_capacity Sample.defaults (Sample.burst 200 0) (Sample.session 0 0)
              59999 (Sample.offline 59999 0) [] (Sample.get "/articles"))
    as (w2 & Hrun & _ & _ & Hlater).
  - vm_compute. reflexivity.
  - apply (bool_decide_unpack _). vm_compute. exact I.
  - apply (bool_decide_unpack _). vm_compute. exact I.
  - vm_compute. reflexivity.
  - reflexivity.
  - exists w2. split; [exact Hrun |]. apply Hlater.
    change w2 with (w2, Some (Rejected (Failed rate_limit_error))).1.
    rewrite <- Hrun. apply (bool_decide_unpack _). vm_compute. exact I.
Defined.

(** ** Re-issuing a request *)

(** C7 does not hold as stated. With 199 fresh records in the window, a
    request is let through (200 records), gets no answer and is re-issued
    1250 ms later: the request interceptor checks the window again and
    rejects the re-issued request, which never reaches the transport. *)
Lemma reissue_is_stopped_by_the_gate :
  let run := apiClient Sample.defaults
               [Sample.offline 1000 (1 # 4); Sample.offline 2250 (1 # 4)]
               (Sample.session 199 0) (Sample.get "/data/x") in
  length (delays (trace run.1)) = 1%nat
  /\ run.2 = Some (Rejected (Failed rate_limit_error))
  /\ ~ (exists r1 r2, sent (trace run.1) = [r1; r2]).
Proof.
  split; [now vm_compute |]. split; [now vm_compute |].
  intros (r1 & r2 & Hsent).
  apply (f_equal length) in Hsent. vm_compute in Hsent. discriminate.
Qed.

(** C7, amended. A re-issued request runs through the whole request
    interceptor again, the admission gate included: when its endpoint is not
    critical and the purged window holds 200 records it is rejected with the
    rate-limit error, [_retry] or not. Otherwise it is recorded in the window
    again and tagged again: [X-Request-ID] is made from the current clock and
    a new random suffix (and differs from the previous one when the clock has
    moved), and [Authorization] is what the request carried before, given
    that it carried the credential of the store. *)
Theorem reissue_passes_the_gate_again (config : environment) (rnd : Q)
        (w w1 : world) (e : error) (d : number) (r0 r1 : request)
        (now : Z) (sfx : string) :
  on_rejected config rnd w e = (w1, Reissue d r1) ->
  err_config e = Some r0 ->
  headers r0 !! "Authorization"
    = (fun token => "Bearer " +:+ token) <$> truthy (localStorage w !! "auth_token") ->
  let endpoint := default EmptyString (truthy (url r0)) in
  let w2 := cleanupOldRequests now w1 in
  if negb (is_critical endpoint)
     && (maxRequests <=? Z.of_nat (length (requestQueue w2)))
  then request_interceptor now sfx w1 r1 = (w2, inl rate_limit_error)
  else exists r2,
      request_interceptor now sfx w1 r1
        = (addToRequestQueue now endpoint w2, inr r2)
      /\ headers r2 !! "Authorization" = headers r0 !! "Authorization"
      /\ headers r2 !! "X-Request-ID" = Some (request_id now sfx)
      /\ forall (now0 : Z) (sfx0 : string),
           headers r0 !! "X-Request-ID" = Some (request_id now0 sfx0) ->
           now0 <> now ->
           headers r2 !! "X-Request-ID" <> headers r0 !! "X-Request-ID".
Proof.
  intros Hrun Hreq Hcredential endpoint w2.
  destruct (reissue_frame config rnd w w1 e d r0 r1 Hrun Hreq) as [Hr1 Hstore].
  pose proof (request_interceptor_spec now sfx w1 r1) as Hspec. cbn zeta in Hspec.
  assert (url r1 = url r0 /\ headers r1 = headers r0) as [Hurl Hheaders]
    by (destruct Hr1 as [-> | ->]; now split).
  rewrite Hurl in Hspec. fold endpoint w2 in Hspec.
  destruct (negb _ && _); [exact Hspec |].
  destruct Hspec as (r2 & Hpass & _ & _ & _ & Hid & Hauth).
  exists r2. split; [exact Hpass |]. split; [| split; [exact Hid |]].
  - rewrite Hauth, Hstore, Hheaders, Hcredential.
    now destruct (truthy (localStorage w !! "auth_token")).
  - intros now0 sfx0 Hid0 Hclock. rewrite Hid, Hid0. intros Heq.
    apply (inj Some), request_id_clock in Heq. congruence.
Qed.

Lemma reissue_passes_the_gate_again_witness :
  exists w2 r2,
    request_interceptor 1250 "p7w4n8c2d"
      (on_rejected Sample.defaults (1 # 4) (Sample.session 1 0)
         (Sample.unreachable "/data/x")).1
      (mark_retry (Sample.tagged 0 "/data/x"))
    = (w2, inr r2)
    /\ headers r2 !! "Authorization" = Some "Bearer t0k3n".
Proof.
  pose proof (reissue_passes_the_gate_again Sample.defaults (1 # 4)
                (Sample.session 1 0)
                (on_rejected Sample.defaults (1 # 4) (Sample.session 1 0)
                   (Sample.unreachable "/data/x")).1
                (Sample.unreachable "/data/x")
                (Num (inject_Z 1000 * 2 ^ (0 + 1 - 1) + (1 # 4) * 1000))
                (Sample.tagged 0 "/data/x")
                (mark_retry (Sample.tagged 0 "/data/x"))
                1250 "p7w4n8c2d") as Hreissue.
  cbv zeta in Hreissue.
  match type of Hreissue with
  | _ -> _ -> _ -> if ?c then _ else _ =>
      replace c with false in Hreissue by (vm_compute; reflexivity)
  end.
  destruct Hreissue as (r2 & Hrun & Hauth & _).
  - reflexivity.
  - reflexivity.
  - vm_compute. reflexivity.
  - eexists. exists r2. split; [exact Hrun |].
    rewrite Hauth. vm_compute. reflexivity.
Defined.

(** ** Unauthorized and NotFound *)

(** C8. On a 401 response [auth_token] and [user_data] are removed from
    [localStorage], once each, the session-expired toast is raised, the
    redirect to [/auth] is scheduled after 1500 ms unless the path already
    contains [/auth], and the error is rejected without a retry. *)
Theorem unauthorized_clears_session (config : environment) (rnd : Q) (w : world) (e : error) :
  isRateLimit e = false ->
  status_is e 401 = true ->
  exists w',
    on_rejected config rnd w e = (w', Reject (Failed e))
    /\ localStorage w' = delete "user_data" (delete "auth_token" (localStorage w))
    /\ trace w' = trace w
         ++ [RemoveItem "auth_token"; RemoveItem "user_data";
             Toast ToastError (Text "Session expired. Please log in again.")]
         ++ (if includes (pathname w) "/auth" then [] else [Redirect "/auth" 1500])
    /\ retryCount w' = retryCount w
    /\ requestQueue w' = requestQueue w.
Proof.
  intros Hlocal H401. unfold on_rejected. rewrite Hlocal, H401.
  eexists. split; [reflexivity |].
  cbn. destruct (includes (pathname w) "/auth"); cbn;
    rewrite <- ?app_assoc; repeat split; reflexivity.
Qed.

Lemma unauthorized_clears_session_witness :
  exists w',
    on_rejected Sample.defaults 0 (Sample.session 3 0) (Sample.failure 401 "/articles" ∅)
    = (w', Reject (Failed (Sample.failure 401 "/articles" ∅)))
    /\ localStorage w' = ∅.
Proof.
  destruct (unauthorized_clears_session Sample.defaults 0 (Sample.session 3 0)
              (Sample.failure 401 "/articles" ∅))
    as (w' & Hrun & Hstore & _).
  - reflexivity.
  - reflexivity.
  - exists w'. split; [exact Hrun |]. rewrite Hstore. vm_compute. reflexivity.
Defined.

(** C9 does not hold as stated. For a 404 on [/admin/users] the handler
    rejects with the very error it received: nothing is added to it that
    would mark it as eligible for fallback data. *)
Lemma admin_not_found_carries_no_flag :
  ~ (exists w' e',
        on_rejected Sample.defaults 0 (Sample.session 0 0)
          (Sample.failure 404 "/admin/users" ∅) = (w', Reject (Failed e'))
        /\ e' <> Sample.failure 404 "/admin/users" ∅).
Proof.
  intros (w' & e' & Hrun & Hflag).
  rewrite on_rejected_404 in Hrun by reflexivity.
  injection Hrun as _ Herr. now apply Hflag.
Qed.

(** C9, amended. On a 404 response the handler rejects with the error
    unchanged and without a retry; the state is untouched. It raises the
    toast [Resource not found.], except when the endpoint contains [/admin/]:
    then it only writes a console warning. *)
Theorem not_found_gives_up (config : environment) (rnd : Q) (w : world) (e : error) :
  isRateLimit e = false ->
  status_is e 404 = true ->
  exists w',
    on_rejected config rnd w e = (w', Reject (Failed e))
    /\ retryCount w' = retryCount w
    /\ requestQueue w' = requestQueue w
    /\ localStorage w' = localStorage w
    /\ let endpoint := default EmptyString (request_endpoint (err_config e)) in
       trace w' = trace w
         ++ [if includes endpoint "/admin/" then ConsoleWarn endpoint
             else Toast ToastError (Text "Resource not found.")].
Proof.
  intros Hlocal H404. rewrite on_rejected_404 by assumption.
  eexists. split; [reflexivity |]. now repeat split.
Qed.

Lemma not_found_gives_up_witness :
  exists w',
    on_rejected Sample.defaults 0 (Sample.session 3 0)
      (Sample.failure 404 "/articles/42" ∅)
    = (w', Reject (Failed (Sample.failure 404 "/articles/42" ∅)))
    /\ toasts (trace w') = [(ToastError, Text "Resource not found.")].
Proof.
  destruct (not_found_gives_up Sample.defaults 0 (Sample.session 3 0)
              (Sample.failure 404 "/articles/42" ∅))
    as (w' & Hrun & _ & _ & _ & Htrace).
  - reflexivity.
  - reflexivity.
  - exists w'. split; [exact Hrun |]. cbv zeta in Htrace. rewrite Htrace.
    vm_compute. reflexivity.
Defined.

(** * Further properties of the client *)

(** ** Every way the error handler ends *)

Ltac handler_cases :=
  unfold on_rejected, network_guard, server_guard, terminal_rejection, toast_value,
    toast_error, removeItem;
  repeat case_match; simplify_eq; cbn.

(** The handler only appends to the trace: no request is sent, no wait is
    recorded (the wait belongs to the re-issue), at most one toast. *)
Lemma on_rejected_trace (config : environment) (rnd : Q) (w : world) (e : error) :
  exists l,
    trace (on_rejected config rnd w e).1 = trace w ++ l
    /\ sent l = [] /\ delays l = [] /\ (length (toasts l) <= 1)%nat.
Proof.
  handler_cases;
    try (exists []; rewrite app_nil_r; cbn; repeat split; lia);
    try (eexists [_]; split; [reflexivity |]; cbn; repeat split; lia);
    rewrite <- ?app_assoc; eexists; (split; [reflexivity |]); cbn; repeat split; lia.
Qed.

(** A re-issue comes from the 429 branch or from one of the two retry
    branches, which need an unmarked request and a counter below the bound. *)
Lemma reissue_cases (config : environment) (rnd : Q) (w w' : world) (e : error)
      (d : number) (r' : request) :
  on_rejected config rnd w e = (w', Reissue d r') ->
  status_is e 429 = true
  \/ exists r q jitter,
      err_config e = Some r /\ _retry r = false
      /\ retryCount w < maxRetries config
      /\ r' = mark_retry r
      /\ retryCount w' = retryCount w + 1
      /\ d = Num q
      /\ (q == inject_Z (baseDelay config) * 2 ^ (retryCount w + 1 - 1) + jitter)%Q
      /\ ((0 <= rnd < 1)%Q -> (0 <= jitter < 1000)%Q).
Proof.
  intros Hrun. revert Hrun. handler_cases; intros; simplify_eq; auto; right.
  all: match goal with H : negb _ && _ = true |- _ =>
         apply andb_prop in H as [Hflag Hlt];
         apply negb_true_iff in Hflag; apply Z.ltb_lt in Hlt end.
  all: first
    [ eexists _, _, (rnd * 1000)%Q;
      do 6 (split; [eassumption || reflexivity |]); split; [reflexivity | intros; lra]
    | eexists _, _, 0%Q;
      do 6 (split; [eassumption || reflexivity |]); split; [ring | intros; lra] ].
Qed.

(** The counter stays between 0 and [maxRetries] through the handler. *)
Lemma on_rejected_counter (config : environment) (rnd : Q) (w : world) (e : error) :
  0 <= retryCount w <= maxRetries config ->
  0 <= retryCount (on_rejected config rnd w e).1 <= maxRetries config.
Proof.
  intros Hinv. handler_cases; try lia.
  all: match goal with H : negb _ && _ = true |- _ =>
         apply andb_prop in H as [_ Hlt]; apply Z.ltb_lt in Hlt end; lia.
Qed.

(** The request interceptor touches the window only. *)
Lemma request_interceptor_frame (now : Z) (sfx : string) (w : world) (r : request) :
  let w' := (request_interceptor now sfx w r).1 in
  retryCount w' = retryCount w /\ localStorage w' = localStorage w
  /\ pathname w' = pathname w /\ trace w' = trace w.
Proof.
  pose proof (request_interceptor_spec now sfx w r) as Hspec. cbn zeta in *.
  destruct (negb _ && _); [| destruct Hspec as (r' & Hspec & _)]; now rewrite Hspec.
Qed.

(** One pass of the client: the gate rejects, the answer is a 2xx, or the
    error handler decides. *)
Lemma apiClient_cases (config : environment) (a : attempt) (script : list attempt)
      (w : world) (r : request) :
  (request_interceptor (clock a) (suffix a) w r
     = (cleanupOldRequests (clock a) w, inl rate_limit_error)
   /\ apiClient config (a :: script) w r
      = (toast_error "Too many requests. Please slow down and try again in a moment."
           (cleanupOldRequests (clock a) w),
         Some (Rejected (Failed rate_limit_error))))
  \/ exists w1 r1,
      request_interceptor (clock a) (suffix a) w r = (w1, inr r1)
      /\ _retry r1 = _retry r
      /\ trace w1 = trace w
      /\ ((exists resp, reply a = Some resp /\ validateStatus (status resp) = true
           /\ apiClient config (a :: script) w r
              = (set_retryCount 0 (emit (Send r1) w1), Some (Resolved resp)))
          \/ (match reply a with
              | Some resp => validateStatus (status resp) = false
              | None => True
              end
              /\ apiClient config (a :: script) w r
                 = match on_rejected config (random a) (emit (Send r1) w1)
                           (transport_error r1 (reply a)) with
                   | (w2, Reject x) => (w2, Some (Rejected x))
                   | (w2, Reissue delay r2) =>
                       apiClient config script (emit (Sleep delay) w2) r2
                   end)).
Proof.
  pose proof (request_interceptor_spec (clock a) (suffix a) w r) as Hspec.
  cbn zeta in Hspec. destruct (negb _ && _).
  - left. split; [exact Hspec |]. now apply apiClient_limited.
  - right. destruct Hspec as (r1 & Hgate & _ & Hflag & _). do 2 eexists.
    split; [exact Hgate |]. split; [exact Hflag |]. split; [reflexivity |].
    destruct (reply a) as [resp |] eqn:Hreply.
    + destruct (validateStatus (status resp)) eqn:Hok.
      * left. exists resp. split; [reflexivity |]. split; [exact Hok |].
        now apply (apiClient_success config a script w _ r r1 resp).
      * right. split; [reflexivity |]. rewrite <- Hreply.
        apply (apiClient_failure config a script w _ r r1 Hgate). now rewrite Hreply.
    + right. split; [exact I |]. rewrite <- Hreply.
      apply (apiClient_failure config a script w _ r r1 Hgate). now rewrite Hreply.
Qed.

(** X9. A counter between 0 and [maxRetries] stays there through a whole call. *)
Theorem retryCount_stays_in_bounds (config : environment) (script : list attempt)
        (w : world) (r : request) :
  0 <= retryCount w <= maxRetries config ->
  0 <= retryCount (apiClient config script w r).1 <= maxRetries config.
Proof.
  revert w r. induction script as [| a script IH]; intros w r Hinv; [exact Hinv |].
  destruct (apiClient_cases config a script w r)
    as [[_ ->] | (w1 & r1 & Hgate & _ & _ & [(resp & _ & _ & ->) | [_ ->]])].
  - exact Hinv.
  - cbn. lia.
  - pose proof (request_interceptor_frame (clock a) (suffix a) w r) as (Hcount & _).
    cbn zeta in Hcount. rewrite Hgate in Hcount. cbn [fst] in Hcount.
    pose proof (on_rejected_counter config (random a) (emit (Send r1) w1)
                  (transport_error r1 (reply a))) as Hstep.
    destruct (on_rejected _ _ _ _) as [w2 [x | d r2]]; cbn [fst] in *.
    + apply Hstep. cbn. lia.
    + apply IH. cbn. apply Hstep. cbn. lia.
Qed.

Lemma status_is_transport_error (r : request) (o : option response) (code : Z) :
  status_is (transport_error r o) code = true ->
  exists resp, o = Some resp /\ status resp = code.
Proof. intros (resp & Hresp & Hcode)%status_is_true. eauto. Qed.

(** A marked request that is not answered 429 settles in this pass. *)
Lemma marked_request_settles (config : environment) (a : attempt)
      (script : list attempt) (w : world) (r : request) :
  _retry r = true ->
  (forall resp, reply a = Some resp -> status resp <> 429) ->
  exists w' res l,
    apiClient config (a :: script) w r = (w', Some res)
    /\ trace w' = trace w ++ l
    /\ (length (sent l) <= 1)%nat /\ delays l = [].
Proof.
  intros Hflag Hreply.
  destruct (apiClient_cases config a script w r)
    as [[_ ->] | (w1 & r1 & Hgate & Hflag1 & Htrace
                  & [(resp & _ & _ & ->) | [_ ->]])].
  - do 3 eexists. split; [reflexivity |]. split; [reflexivity |].
    unfold sent, delays. cbn. split; [lia | reflexivity].
  - do 3 eexists. split; [reflexivity |]. cbn [trace set_retryCount emit].
    rewrite Htrace. split; [reflexivity |].
    unfold sent, delays. cbn. split; [lia | reflexivity].
  - destruct (on_rejected_trace config (random a) (emit (Send r1) w1)
                (transport_error r1 (reply a))) as (l & Hl & Hsent & Hdelays & _).
    destruct (on_rejected _ _ _ _) as [w2 [x | d r2]] eqn:Hrun; cbn [fst] in Hl.
    + exists w2, (Rejected x), (Send r1 :: l). split; [reflexivity |].
      rewrite Hl. cbn [trace emit]. rewrite Htrace, <- app_assoc.
      split; [reflexivity |]. unfold sent, delays in *. cbn. rewrite Hsent, Hdelays.
      cbn. split; [lia | reflexivity].
    + exfalso. apply reissue_cases in Hrun
        as [(resp & Hresp & Hcode)%status_is_transport_error
           | (r0 & _ & _ & [= <-] & Hunmarked & _)].
      * now apply (Hreply resp).
      * congruence.
Qed.

(** X8. Unless the server answers 429, a call settles within two passes: it is
    sent at most twice and waits at most once. *)
Theorem settles_within_two_passes (config : environment) (a1 a2 : attempt)
        (script : list attempt) (w : world) (r : request) :
  (forall resp, reply a1 = Some resp -> status resp <> 429) ->
  (forall resp, reply a2 = Some resp -> status resp <> 429) ->
  exists w' res,
    apiClient config (a1 :: a2 :: script) w r = (w', Some res)
    /\ (length (sent (trace w')) <= length (sent (trace w)) + 2)%nat
    /\ (length (delays (trace w')) <= length (delays (trace w)) + 1)%nat.
Proof.
  intros Hreply1 Hreply2.
  destruct (apiClient_cases config a1 (a2 :: script) w r)
    as [[_ ->] | (w1 & r1 & Hgate & Hflag1 & Htrace
                  & [(resp & _ & _ & ->) | [_ ->]])].
  - do 2 eexists. split; [reflexivity |]. cbn [trace toast_error emit cleanupOldRequests
      set_requestQueue]. unfold sent, delays. rewrite !omap_app, !length_app. cbn. lia.
  - do 2 eexists. split; [reflexivity |]. cbn [trace set_retryCount emit].
    rewrite Htrace. unfold sent, delays. rewrite !omap_app, !length_app. cbn. lia.
  - destruct (on_rejected_trace config (random a1) (emit (Send r1) w1)
                (transport_error r1 (reply a1))) as (l & Hl & Hsent & Hdelays & _).
    destruct (on_rejected _ _ _ _) as [w2 [x | d r2]] eqn:Hrun; cbn [fst] in Hl.
    + do 2 eexists. split; [reflexivity |]. rewrite Hl. cbn [trace emit].
      rewrite Htrace. unfold sent, delays in *.
      rewrite !omap_app, !length_app, Hsent, Hdelays. cbn. lia.
    + apply reissue_cases in Hrun
        as [(resp & Hresp & Hcode)%status_is_transport_error
           | (r0 & _ & _ & _ & _ & _ & -> & _)];
        [now destruct (Hreply1 resp) |].
      destruct (marked_request_settles config a2 script (emit (Sleep d) w2)
                  (mark_retry r0) eq_refl Hreply2)
        as (w' & res & l' & -> & Hl' & Hsent' & Hdelays').
      exists w', res. split; [reflexivity |]. rewrite Hl'. cbn [trace emit].
      rewrite Hl. cbn [trace emit]. rewrite Htrace. unfold sent, delays in *.
      rewrite !omap_app, !length_app, Hsent, Hdelays, Hdelays'. cbn. lia.
Qed.

(** ** The window and the tags *)

(** X1. After a run of the request interceptor every record of the window,
    the new one included, is younger than [windowMs] at that time. *)
Theorem window_is_fresh_after_interceptor (now : Z) (sfx : string) (w : world)
        (r : request) :
  Forall (fun rec => now - timestamp rec < windowMs)
    (requestQueue (request_interceptor now sfx w r).1).
Proof.
  pose proof (request_interceptor_spec now sfx w r) as Hspec. cbn zeta in Hspec.
  assert (Forall (fun rec => now - timestamp rec < windowMs)
            (requestQueue (cleanupOldRequests now w))) as Hclean.
  { apply List.Forall_forall. intros rec [_ Hrec%Z.ltb_lt]%List.filter_In. exact Hrec. }
  destruct (negb _ && _); [| destruct Hspec as (r' & Hspec & _)]; rewrite Hspec;
    [exact Hclean |].
  cbn [fst requestQueue addToRequestQueue set_requestQueue].
  apply Forall_app. split; [exact Hclean |].
  constructor; [| constructor]. cbn. unfold windowMs. lia.
Qed.

Lemma interceptor_capacity (now : Z) (sfx : string) (w : world) (r : request) :
  is_critical (default EmptyString (truthy (url r))) = false ->
  Z.of_nat (length (requestQueue w)) <= maxRequests ->
  Z.of_nat (length (requestQueue (request_interceptor now sfx w r).1)) <= maxRequests.
Proof.
  intros Hplain Hroom.
  pose proof (request_interceptor_spec now sfx w r) as Hspec. cbn zeta in Hspec.
  pose proof (cleanup_length now w) as Hlen. rewrite Hplain in Hspec. cbn [negb andb] in Hspec.
  destruct (maxRequests <=? _) eqn:Hfull; [| destruct Hspec as (r' & Hspec & _)];
    rewrite Hspec; cbn [fst]; [lia |].
  apply Z.leb_gt in Hfull.
  cbn [requestQueue addToRequestQueue set_requestQueue]. rewrite length_app. cbn [length].
  lia.
Qed.

(** X2. A window that holds at most [maxRequests] records still does after any
    sequence of requests to endpoints that are not critical. *)
Theorem window_never_exceeds_capacity (calls : list (Z * string * request)) (w : world) :
  Forall (fun c => is_critical (default EmptyString (truthy (url c.2))) = false) calls ->
  Z.of_nat (length (requestQueue w)) <= maxRequests ->
  Z.of_nat (length (requestQueue (intercept_all calls w).1)) <= maxRequests.
Proof.
  intros Hplain. revert w.
  induction Hplain as [| [[now sfx] r] calls Hr _ IH]; intros w Hroom; [exact Hroom |].
  cbn [intercept_all].
  pose proof (interceptor_capacity now sfx w r Hr Hroom) as Hstep.
  destruct (request_interceptor now sfx w r) as [w1 res].
  specialize (IH w1 Hstep). now destruct (intercept_all calls w1).
Qed.

(** X3. The request interceptor rejects exactly when the endpoint is not
    critical and at least [maxRequests] records are still fresh. A rejected
    request only purges the window; a request let through is recorded at its end. *)
Theorem rejected_iff_window_full (now : Z) (sfx : string) (w : world) (r : request) :
  let run := request_interceptor now sfx w r in
  let still := List.filter (fresh now) (requestQueue w) in
  (let_through run.2 = false
   <-> is_critical (default EmptyString (truthy (url r))) = false
       /\ maxRequests <= Z.of_nat (length still))
  /\ (let_through run.2 = false ->
      run.2 = inl rate_limit_error /\ requestQueue run.1 = still)
  /\ (let_through run.2 = true ->
      requestQueue run.1
      = still ++ [{| timestamp := now;
                     endpoint := default EmptyString (truthy (url r)) |}]).
Proof.
  pose proof (request_interceptor_spec now sfx w r) as Hspec. cbn zeta in *.
  change (requestQueue (cleanupOldRequests now w))
    with (List.filter (fresh now) (requestQueue w)) in Hspec.
  destruct (is_critical _); cbn [negb andb] in Hspec.
  - destruct Hspec as (r' & -> & _). cbn. repeat split; try discriminate.
    now intros [? _].
  - destruct (maxRequests <=? _) eqn:Hfull.
    + rewrite Hspec. cbn. apply Z.leb_le in Hfull. repeat split; try discriminate; auto.
    + destruct Hspec as (r' & -> & _). cbn. apply Z.leb_gt in Hfull.
      repeat split; try discriminate. intros [_ ?]. lia.
Qed.

(** X4. A request let through keeps its url, its retry flag and every header
    other than [Authorization] and [X-Request-ID]; without a stored token
    [Authorization] is left as the caller set it. *)
Theorem tagging_touches_two_headers (now : Z) (sfx : string) (w w' : world)
        (r r' : request) :
  request_interceptor now sfx w r = (w', inr r') ->
  url r' = url r /\ _retry r' = _retry r
  /\ (forall k, k <> "Authorization" -> k <> "X-Request-ID" ->
                headers r' !! k = headers r !! k)
  /\ (truthy (localStorage w !! "auth_token") = None ->
      headers r' !! "Authorization" = headers r !! "Authorization").
Proof.
  unfold request_interceptor, shouldRateLimit.
  destruct (is_critical _); [| destruct (maxRequests <=? _); [discriminate |]].
  all: change (localStorage (addToRequestQueue _ _ (cleanupOldRequests now w)))
         with (localStorage w).
  all: destruct (truthy (localStorage w !! "auth_token")) as [token |];
    intros [= <- <-]; cbn [url _retry headers set_header set_metadata].
  all: do 2 (split; [reflexivity |]); split;
    [intros k Hauth Hid; now rewrite !lookup_insert_ne by congruence |].
  all: try discriminate.
  all: intros _; now rewrite lookup_insert_ne by discriminate.
Qed.

Lemma append_cancel (a x y : string) : a +:+ x = a +:+ y -> x = y.
Proof. induction a as [| c a IH]; cbn; [trivial |]. intros [= Heq]. now apply IH. Qed.

(** X5. Two correlation ids are equal only when made from the same clock
    reading and the same suffix. *)
Theorem request_id_injective (now now' : Z) (sfx sfx' : string) :
  request_id now sfx = request_id now' sfx' -> now = now' /\ sfx = sfx'.
Proof.
  unfold request_id. intros Heq.
  apply append_cancel in Heq.
  pose proof Heq as Hclock.
  apply split_at_underscore in Hclock; [| apply pretty_no_underscore ..].
  apply (inj pretty) in Hclock. subst now'. split; [reflexivity |].
  apply append_cancel in Heq. now injection Heq.
Qed.

(** ** Terminal outcomes of the error handler *)

(** X14. A 4xx answer other than 401, 403, 404 and 429 is not retried and
    leaves the counter at 0. The message is [data.error] if truthy, else
    [data.message] if truthy, else [Request failed]. A string is shown in one
    toast unless it contains [Session expired] or [Access denied]; an array
    is shown unless one of its items is one of these two texts; both reject
    with the error unchanged. Any other truthy value has no [includes]: the
    handler throws and rejects with a TypeError, without a toast. *)
Theorem client_error_surfaces_server_message (config : environment) (rnd : Q)
        (w : world) (e : error) (resp : response) :
  isRateLimit e = false ->
  err_response e = Some resp ->
  400 <= status resp < 500 ->
  status resp <> 401 -> status resp <> 403 -> status resp <> 404 ->
  status resp <> 429 ->
  let field := fun f => from_option f (Opaque false) (data resp) in
  let errorMessage :=
    or_value (or_value (field data_error) (field data_message))
      (Str "Request failed") in
  let among := fun (items : list value) (text : string) =>
    existsb (fun item => match item with
                         | Str s => String.eqb s text
                         | _ => false
                         end) items in
  is_truthy errorMessage = true
  /\ on_rejected config rnd w e
     = match errorMessage with
       | Str m =>
           (if includes m "Session expired" || includes m "Access denied"
            then set_retryCount 0 w
            else toast_error m (set_retryCount 0 w),
            Reject (Failed e))
       | Arr items =>
           (if among items "Session expired" || among items "Access denied"
            then set_retryCount 0 w
            else emit (Toast ToastError (Items items)) (set_retryCount 0 w),
            Reject (Failed e))
       | Opaque _ => (set_retryCount 0 w, Reject TypeError)
       end.
Proof.
  intros Hlocal Hresp Hrange H401 H403 H404 H429 field errorMessage among. split.
  { unfold errorMessage, or_value.
    now destruct (is_truthy (if is_truthy (field data_error) then _ else _)) eqn:Hchain. }
  unfold on_rejected.
  rewrite Hlocal, !(status_is_other e resp) by assumption.
  unfold network_guard, server_guard, terminal_rejection. rewrite Hresp.
  replace (500 <=? status resp) with false by (symmetry; apply Z.leb_gt; lia).
  rewrite andb_false_r.
  replace (400 <=? status resp) with true by (symmetry; apply Z.leb_le; lia).
  replace (status resp <? 500) with true by (symmetry; apply Z.ltb_lt; lia).
  cbn [andb]. change (error_message (data resp)) with errorMessage.
  destruct errorMessage as [m | items |]; cbn [value_includes toast_value].
  - now destruct (includes m "Session expired"), (includes m "Access denied").
  - fold (among items "Session expired"). fold (among items "Access denied").
    now destruct (among items "Session expired"), (among items "Access denied").
  - reflexivity.
Qed.

(** X15. An answer with a status below 400 that reaches the error handler is
    rejected unchanged with the counter at 0 and without any toast. *)
Theorem unexpected_status_is_rejected_silently (config : environment) (rnd : Q)
        (w : world) (e : error) (resp : response) :
  isRateLimit e = false ->
  err_response e = Some resp ->
  status resp < 400 ->
  on_rejected config rnd w e = (set_retryCount 0 w, Reject (Failed e)).
Proof.
  intros Hlocal Hresp Hstatus. unfold on_rejected.
  rewrite Hlocal, !(status_is_other e resp) by (assumption || lia).
  unfold network_guard, server_guard, terminal_rejection. rewrite Hresp.
  replace (500 <=? status resp) with false by (symmetry; apply Z.leb_gt; lia).
  rewrite andb_false_r.
  replace (400 <=? status resp) with false by (symmetry; apply Z.leb_gt; lia).
  reflexivity.
Qed.

Lemma parseInt_not_a_number (c : ascii) (s : string) :
  is_white_space c = false -> c <> "-"%char -> c <> "+"%char ->
  digit_value 10 c = None ->
  parseInt (String c s) = NaN.
Proof.
  intros Hspace Hminus Hplus Hdigit. unfold parseInt. cbn [trim_start]. rewrite Hspace.
  assert (strip_sign (String c s) = (1, String c s)) as ->.
  { destruct c as [[] [] [] [] [] [] [] []]; try reflexivity; congruence. }
  assert (strip_hex_prefix (String c s) = (10, String c s)) as ->.
  { destruct c as [[] [] [] [] [] [] [] []]; try reflexivity. discriminate. }
  cbn [parse_digits]. now rewrite Hdigit.
Qed.

(** X13. On a 429, an empty [retry-after] header gives the default delay of
    5000 ms, and a header that starts with neither white space (the no-break
    space included), a sign nor a digit (an HTTP date) gives the delay [NaN]. *)
Theorem retry_after_edge_cases (config : environment) (rnd : Q) (w : world)
        (e : error) (resp : response) :
  isRateLimit e = false ->
  err_response e = Some resp ->
  status resp = 429 ->
  (resp_headers resp !! "retry-after" = Some EmptyString ->
   (on_rejected config rnd w e).2
   = Reissue (Num 5000) (default empty_request (err_config e)))
  /\ forall (c : ascii) (s : string),
       resp_headers resp !! "retry-after" = Some (String c s) ->
       is_white_space c = false -> c <> "-"%char -> c <> "+"%char ->
       digit_value 10 c = None ->
       (on_rejected config rnd w e).2
       = Reissue NaN (default empty_request (err_config e)).
Proof.
  intros Hlocal Hresp Hstatus.
  rewrite on_rejected_429 by (try apply status_is_true; eauto).
  rewrite Hresp. cbn [mbind option_bind]. split.
  - now intros ->.
  - intros c s -> Hspace Hminus Hplus Hdigit. cbn [truthy snd].
    now rewrite parseInt_not_a_number.
Qed.

(** X16. Unless the answer is a 401 that is not locally flagged, the error
    handler leaves [localStorage] and the path alone and neither removes an
    item nor schedules a redirect. *)
Theorem credentials_change_only_on_unauthorized (config : environment) (rnd : Q)
        (w : world) (e : error) :
  isRateLimit e = true \/ status_is e 401 = false ->
  let w' := (on_rejected config rnd w e).1 in
  localStorage w' = localStorage w
  /\ pathname w' = pathname w
  /\ exists l,
      trace w' = trace w ++ l
      /\ Forall (fun ev => match ev with
                           | RemoveItem _ | Redirect _ _ => False
                           | _ => True
                           end) l.
Proof.
  intros Hother. cbn zeta. handler_cases;
    try (destruct Hother; congruence); do 2 (split; [reflexivity |]).
  all: try (exists []; rewrite app_nil_r; now split).
  all: eexists [_]; split; [reflexivity |]; now repeat constructor.
Qed.

(** X17. Handling one failure appends to the trace at most one toast and no
    sent request. *)
Theorem handler_raises_at_most_one_toast (config : environment) (rnd : Q)
        (w : world) (e : error) :
  exists l,
    trace (on_rejected config rnd w e).1 = trace w ++ l
    /\ (length (toasts l) <= 1)%nat
    /\ sent l = [].
Proof.
  destruct (on_rejected_trace config rnd w e) as (l & Hl & Hsent & _ & Htoasts).
  now exists l.
Qed.

(** X11. A network or server failure that is not retried leaves the counter at
    0, so that the failure of the next fresh request is retried after
    [baseDelay] plus jitter. *)
Theorem budget_recovers_after_terminal_failure (config : environment) (rnd rnd' : Q)
        (w : world) (e e' : error) (r r' : request) :
  isRateLimit e = false ->
  err_config e = Some r ->
  (err_response e = None
   \/ exists resp, err_response e = Some resp /\ 500 <= status resp) ->
  (_retry r = true \/ maxRetries config <= retryCount w) ->
  isRateLimit e' = false ->
  err_response e' = None ->
  err_config e' = Some r' ->
  _retry r' = false ->
  0 < maxRetries config ->
  let w1 := (on_rejected config rnd w e).1 in
  retryCount w1 = 0
  /\ exists w2,
      on_rejected config rnd' w1 e'
      = (w2, Reissue (Num (inject_Z (baseDelay config) * 2 ^ (0 + 1 - 1) + rnd' * 1000))
               (mark_retry r'))
      /\ retryCount w2 = 1.
Proof.
  intros Hlocal Hreq Hclass Hspent Hlocal' Hresp' Hreq' Hfresh Hmax w1.
  assert (negb (_retry r) && (retryCount w <? maxRetries config) = false) as Hguard.
  { destruct Hspent as [-> | Hspent]; [reflexivity |].
    rewrite andb_false_iff. right. apply Z.ltb_ge. lia. }
  destruct (terminal_rejection_resets w e) as (wg & xg & Hgive & Hzero).
  assert (retryCount w1 = 0) as Hcount.
  { unfold w1. destruct Hclass as [Hresp | (resp & Hresp & Hstatus)].
    - rewrite (on_rejected_network config rnd w e r), Hguard, Hgive by assumption.
      exact Hzero.
    - rewrite (on_rejected_server config rnd w e r resp), Hguard, Hgive by assumption.
      exact Hzero. }
  split; [exact Hcount |]. clearbody w1.
  rewrite (on_rejected_network config rnd' w1 e' r') by assumption.
  eexists. rewrite Hfresh, Hcount. cbn [negb andb].
  replace (0 <? maxRetries config) with true by (symmetry; apply Z.ltb_lt; lia).
  split; reflexivity.
Qed.

(** X10. The delay of a retry that is not a 429 retry is at least [baseDelay]
    and below [baseDelay * 2^(maxRetries - 1) + 1000]. *)
Theorem backoff_delay_is_bounded (config : environment) (rnd : Q) (w w' : world)
        (e : error) (d : number) (r' : request) :
  0 <= retryCount w ->
  0 <= baseDelay config ->
  (0 <= rnd < 1)%Q ->
  status_is e 429 = false ->
  on_rejected config rnd w e = (w', Reissue d r') ->
  exists q,
    d = Num q
    /\ (inject_Z (baseDelay config) <= q
        < inject_Z (baseDelay config * 2 ^ (maxRetries config - 1)) + 1000)%Q.
Proof.
  intros Hcount Hbase Hrnd Hother Hrun.
  apply reissue_cases in Hrun
    as [H429 | (r & q & jitter & _ & _ & Hlt & _ & _ & -> & Hq & Hjitter)];
    [congruence |].
  specialize (Hjitter Hrnd). exists q. split; [reflexivity |].
  replace (retryCount w + 1 - 1) with (retryCount w) in Hq by lia.
  change 2%Q with (inject_Z 2) in Hq.
  rewrite <- Zpower_Qpower, <- inject_Z_mult in Hq by assumption.
  assert (1 <= 2 ^ retryCount w <= 2 ^ (maxRetries config - 1)) as [Hone Hpow].
  { split; [apply (Z.pow_le_mono_r 2 0); lia | apply Z.pow_le_mono_r; lia]. }
  assert (baseDelay config <= baseDelay config * 2 ^ retryCount w
          <= baseDelay config * 2 ^ (maxRetries config - 1)) as [Hlow Hhigh] by nia.
  rewrite Zle_Qle in Hlow, Hhigh. rewrite Hq. split; lra.
Qed.

(** X12. The request re-issued after a 429 passes the local gate, whatever the
    window held: the handler has cut it down to 50 records. *)
Theorem reissue_after_429_passes_the_gate (config : environment) (rnd : Q)
        (w : world) (e : error) (now : Z) (sfx : string) :
  isRateLimit e = false ->
  status_is e 429 = true ->
  exists w1 d r1 w2 r2,
    on_rejected config rnd w e = (w1, Reissue d r1)
    /\ request_interceptor now sfx w1 r1 = (w2, inr r2).
Proof.
  intros Hlocal H429. rewrite on_rejected_429 by assumption. cbn zeta.
  match goal with |- context [(?w1, Reissue ?d ?r1)] =>
    destruct (request_interceptor_passes now sfx w1 r1) as (r2 & Hpass & _) end.
  - cbn [requestQueue set_requestQueue emit].
    destruct (slice_last_suffix 50 (requestQueue w)) as (_ & _ & Hlen).
    rewrite Hlen. unfold maxRequests. lia.
  - do 5 eexists. split; [reflexivity | exact Hpass].
Qed.

(** ** Whole calls *)

(** What a request carries once the interceptor has let it through. *)
Lemma interceptor_tags (now : Z) (sfx : string) (w w1 : world) (r r1 : request) :
  request_interceptor now sfx w r = (w1, inr r1) ->
  w1 = addToRequestQueue now (default EmptyString (truthy (url r)))
         (cleanupOldRequests now w)
  /\ req_metadata r1
     = Some {| startTime := now;
               meta_endpoint := default EmptyString (truthy (url r)) |}
  /\ headers r1 !! "X-Request-ID" = Some (request_id now sfx)
  /\ headers r1 !! "Authorization"
     = match truthy (localStorage w !! "auth_token") with
       | Some token => Some ("Bearer " +:+ token)
       | None => headers r !! "Authorization"
       end.
Proof.
  intros Hgate. pose proof (request_interceptor_spec now sfx w r) as Hspec.
  cbn zeta in Hspec. destruct (negb _ && _); [congruence |].
  destruct Hspec as (r' & Hpass & _ & _ & Hmeta & Hid & Hauth).
  rewrite Hpass in Hgate. now injection Hgate as <- <-.
Qed.

(** X7. With a token in the store, every request a call sends, re-issues
    included, carries [Bearer token], a correlation id and its metadata. *)
Theorem sent_requests_carry_the_credential (config : environment)
        (script : list attempt) (w : world) (r : request) (token : string) :
  truthy (localStorage w !! "auth_token") = Some token ->
  exists new,
    sent (trace (apiClient config script w r).1) = sent (trace w) ++ new
    /\ Forall (fun q => headers q !! "Authorization" = Some ("Bearer " +:+ token)
                        /\ is_Some (headers q !! "X-Request-ID")
                        /\ is_Some (req_metadata q)) new.
Proof.
  revert w r. induction script as [| a script IH]; intros w r Htoken.
  { exists []. now rewrite app_nil_r. }
  destruct (apiClient_cases config a script w r)
    as [[_ ->] | (w1 & r1 & Hgate & _ & Htrace & Hpass)].
  { exists []. cbn [fst trace toast_error emit cleanupOldRequests set_requestQueue].
    unfold sent. rewrite omap_app. now cbn. }
  destruct (interceptor_tags _ _ _ _ _ _ Hgate) as (Hw1 & Hmeta & Hid & Hauth).
  rewrite Htoken in Hauth.
  assert (headers r1 !! "Authorization" = Some ("Bearer " +:+ token)
          /\ is_Some (headers r1 !! "X-Request-ID")
          /\ is_Some (req_metadata r1)) as Htagged
    by (rewrite Hauth, Hid, Hmeta; eauto).
  destruct Hpass as [(resp & _ & _ & ->) | [_ ->]].
  { exists [r1]. cbn [fst trace set_retryCount emit]. rewrite Htrace.
    unfold sent. rewrite omap_app. split; [reflexivity | now constructor]. }
  destruct (on_rejected_trace config (random a) (emit (Send r1) w1)
              (transport_error r1 (reply a))) as (l & Hl & Hsent & _).
  destruct (on_rejected _ _ _ _) as [w2 [x | d r2]] eqn:Hrun; cbn [fst] in Hl.
  { exists [r1]. cbn [fst]. rewrite Hl. cbn [trace emit]. rewrite Htrace.
    unfold sent in *. rewrite !omap_app, Hsent, app_nil_r.
    split; [reflexivity | now constructor]. }
  destruct (reissue_frame config _ _ _ _ _ r1 _ Hrun eq_refl) as [_ Hstore].
  destruct (IH (emit (Sleep d) w2) r2) as (new & Hnew & Hall).
  { cbn [localStorage emit] in *. rewrite Hstore, Hw1. exact Htoken. }
  exists (r1 :: new). rewrite Hnew. cbn [trace emit]. rewrite Hl. cbn [trace emit].
  rewrite Htrace. unfold sent in *. rewrite !omap_app, Hsent. cbn.
  rewrite <- !app_assoc. split; [reflexivity | now constructor].
Qed.

(** X6. Below the capacity of the window, a request answered 2xx resolves with
    that answer: one request is sent, tagged with its id, no toast is raised,
    the counter is 0, the store is untouched and the request is recorded. *)
Theorem first_pass_success (config : environment) (a : attempt)
        (script : list attempt) (w : world) (r : request) (resp : response) :
  Z.of_nat (length (requestQueue w)) < maxRequests ->
  reply a = Some resp ->
  200 <= status resp < 300 ->
  exists w' r1,
    apiClient config (a :: script) w r = (w', Some (Resolved resp))
    /\ trace w' = trace w ++ [Send r1]
    /\ headers r1 !! "X-Request-ID" = Some (request_id (clock a) (suffix a))
    /\ retryCount w' = 0
    /\ localStorage w' = localStorage w
    /\ requestQueue w'
       = List.filter (fresh (clock a)) (requestQueue w)
           ++ [{| timestamp := clock a;
                  endpoint := default EmptyString (truthy (url r)) |}].
Proof.
  intros Hroom Hreply Hstatus.
  destruct (request_interceptor_passes (clock a) (suffix a) w r Hroom)
    as (r1 & Hgate & _).
  destruct (interceptor_tags _ _ _ _ _ _ Hgate) as (_ & _ & Hid & _).
  rewrite (apiClient_success config a script w _ r r1 resp Hgate Hreply).
  - exists (set_retryCount 0 (emit (Send r1)
             (addToRequestQueue (clock a) (default EmptyString (truthy (url r)))
                (cleanupOldRequests (clock a) w)))), r1.
    now repeat split.
  - unfold validateStatus. apply andb_true_intro.
    split; [apply Z.leb_le | apply Z.ltb_lt]; lia.
Qed.

(** * Properties of the article editor *)

(** X18. An article with status [scheduled] reaches a mutation only with a
    date that parses to a time after the current one; that date is what is
    submitted. *)
Theorem scheduled_needs_a_future_date (parse : string -> option Z)
        (iso : Z -> string) (editing : bool) (st : Editor.editor) (now : Z)
        (data : Editor.form) (d : Editor.submitData) :
  Editor.status data = Editor.Scheduled ->
  Editor.sent_data (Editor.onSubmit parse iso editing st now data) = Some d ->
  exists t time,
    truthy (Editor.scheduledAt data) = Some t
    /\ parse t = Some time
    /\ now < time
    /\ Editor.s_scheduledAt d = Some (iso time)
    /\ Editor.s_status d = Editor.Scheduled.
Proof.
  intros Hstatus. unfold Editor.onSubmit. rewrite Hstatus.
  destruct (truthy (Editor.scheduledAt data)) as [t |] eqn:Hdate; [| discriminate].
  destruct (parse t) as [time |] eqn:Hparse; [| discriminate].
  destruct (time <=? now) eqn:Hpast; [discriminate |]. apply Z.leb_gt in Hpast.
  intros Hsent. exists t, time.
  destruct editing; injection Hsent as <-; now repeat split.
Qed.


(** What a mutation receives, field by field. *)
Lemma onSubmit_data (parse : string -> option Z) (iso : Z -> string)
      (editing : bool) (st : Editor.editor) (now : Z) (data : Editor.form)
      (d : Editor.submitData) :
  Editor.sent_data (Editor.onSubmit parse iso editing st now data) = Some d ->
  Editor.s_title d = Editor.title data
  /\ Editor.s_excerpt d = Editor.excerpt data
  /\ Editor.s_content d = Editor.content data
  /\ Editor.s_featuredImage d
     = default EmptyString
         (or_else (Editor.medium <$> Editor.uploadedImage st)
            (truthy (Editor.featuredImage data)))
  /\ Editor.s_featuredImageAlt d
     = default EmptyString
         (or_else (Some (Editor.imageAltText st))
            (truthy (Editor.featuredImageAlt data)))
  /\ Editor.s_categoryId d = Editor.categoryId data
  /\ Editor.s_authorId d = Editor.authorId data
  /\ Editor.s_status d = Editor.status data
  /\ Editor.s_isPinned d = Editor.isPinned data
  /\ Editor.s_seoTitle d = Editor.seoTitle data
  /\ Editor.s_seoDescription d = Editor.seoDescription data.
Proof.
  unfold Editor.onSubmit. intros Hsent.
  repeat case_match; simplify_eq; cbn in *; simplify_eq; cbn; now repeat split.
Qed.

(** A submission that sends data has called [onSubmit] on the values. *)
Lemma submit_sent (parse : string -> option Z) (iso : Z -> string)
      (resolver : Editor.form -> bool) (editing : bool) (st : Editor.editor)
      (now : Z) (d : Editor.submitData) :
  Editor.sent_data (Editor.submit parse iso resolver editing st now) = Some d ->
  resolver (Editor.values st) = true
  /\ Editor.sent_data (Editor.onSubmit parse iso editing st now (Editor.values st))
     = Some d.
Proof. unfold Editor.submit. now destruct (resolver (Editor.values st)). Qed.

(** X20. After [handleImageUploaded] the image that is submitted is the one
    handed over, url and alt text, and it is empty after a removal. *)
Theorem uploaded_image_is_submitted (parse : string -> option Z) (iso : Z -> string)
        (resolver : Editor.form -> bool) (editing : bool) (st : Editor.editor)
        (now : Z) (imageData : option Editor.image) (d : Editor.submitData) :
  Editor.sent_data
    (Editor.submit parse iso resolver editing
       (Editor.handleImageUploaded imageData st) now)
  = Some d ->
  Editor.s_featuredImage d = from_option Editor.medium EmptyString imageData
  /\ Editor.s_featuredImageAlt d = from_option Editor.altText EmptyString imageData.
Proof.
  intros [_ (_ & _ & _ & -> & -> & _)%onSubmit_data]%submit_sent.
  destruct imageData as [[url alt] |]; cbn; [| now split].
  unfold or_else. now destruct url, alt.
Qed.

(** X21. After [handleAltTextChange] the alt text that is submitted is the
    one typed, empty included. *)
Theorem alt_text_change_is_submitted (parse : string -> option Z) (iso : Z -> string)
        (resolver : Editor.form -> bool) (editing : bool) (st : Editor.editor)
        (now : Z) (alt : string) (d : Editor.submitData) :
  Editor.sent_data
    (Editor.submit parse iso resolver editing (Editor.handleAltTextChange alt st) now)
  = Some d ->
  Editor.s_featuredImageAlt d = alt.
Proof.
  intros [_ (_ & _ & _ & _ & -> & _)%onSubmit_data]%submit_sent.
  cbn. unfold or_else. now destruct alt.
Qed.

(** X22. An article loaded into the form and submitted untouched, with no
    upload pending, comes back with its own fields; absent optional texts
    come back empty. *)
Theorem populated_form_round_trip (parse : string -> option Z)
        (format : string -> string) (iso : Z -> string)
        (resolver : Editor.form -> bool) (editing : bool)
        (st : Editor.editor) (now : Z) (a : Editor.article) (d : Editor.submitData) :
  Editor.uploadedImage st = None ->
  Editor.sent_data
    (Editor.submit parse iso resolver editing (Editor.populate format a st) now)
  = Some d ->
  Editor.s_title d = Editor.a_title a
  /\ Editor.s_content d = Editor.a_content a
  /\ Editor.s_categoryId d = Editor.a_category_id a
  /\ Editor.s_authorId d = Some (Editor.a_author_id a)
  /\ Editor.s_status d = Editor.a_status a
  /\ Editor.s_excerpt d = Some (Editor.or_empty (Editor.a_excerpt a))
  /\ Editor.s_featuredImage d = Editor.or_empty (Editor.a_featuredImage a)
  /\ Editor.s_featuredImageAlt d = Editor.or_empty (Editor.a_featuredImageAlt a)
  /\ Editor.s_isPinned d = Some (default false (Editor.a_isPinned a))
  /\ Editor.s_seoTitle d = Some (Editor.or_empty (Editor.a_seoTitle a))
  /\ Editor.s_seoDescription d = Some (Editor.or_empty (Editor.a_seoDescription a)).
Proof.
  intros Hupload
    [_ (-> & -> & -> & -> & -> & -> & -> & -> & -> & -> & ->)%onSubmit_data]%submit_sent.
  cbn. rewrite Hupload. cbn. unfold or_else, Editor.or_empty. repeat split.
  - now destruct (truthy (Editor.a_featuredImage a)) as [[] |].
  - now destruct (truthy (Editor.a_featuredImageAlt a)) as [[] |].
Qed.

(** * Instances of the further properties *)

Lemma window_never_exceeds_capacity_witness :
  Z.of_nat (length (requestQueue
                      (intercept_all (Sample.burst 300 0) (Sample.session 0 0)).1))
  <= maxRequests.
Proof.
  apply (window_never_exceeds_capacity (Sample.burst 300 0) (Sample.session 0 0)).
  - apply (bool_decide_unpack _). vm_compute. exact I.
  - unfold maxRequests. simpl. lia.
Defined.

Lemma tagging_touches_two_headers_witness :
  headers (Sample.tagged 0 "/data/x") !! "Content-Type" = Some "application/json".
Proof.
  destruct (tagging_touches_two_headers 0 "k3x9q2m1z" (Sample.session 0 0)
              (request_interceptor 0 "k3x9q2m1z" (Sample.session 0 0)
                 (Sample.get "/data/x")).1
              (Sample.get "/data/x") (Sample.tagged 0 "/data/x"))
    as (_ & _ & Hother & _).
  - vm_compute. reflexivity.
  - rewrite Hother by discriminate. vm_compute. reflexivity.
Defined.

Lemma request_id_injective_witness :
  1250 = 1250 /\ "k3x9q2m1z" = "k3x9q2m1z".
Proof.
  apply (request_id_injective 1250 1250 "k3x9q2m1z" "k3x9q2m1z"). reflexivity.
Defined.

Lemma first_pass_success_witness :
  exists w' r1,
    apiClient Sample.defaults [Sample.answer 0 200 ∅] (Sample.session 0 0)
      (Sample.get "/articles")
    = (w', Some (Resolved {| status := 200; resp_headers := ∅; data := None |}))
    /\ trace w' = [Send r1].
Proof.
  destruct (first_pass_success Sample.defaults (Sample.answer 0 200 ∅) []
              (Sample.session 0 0) (Sample.get "/articles")
              {| status := 200; resp_headers := ∅; data := None |})
    as (w' & r1 & Hrun & Htrace & _).
  - unfold maxRequests. simpl. lia.
  - reflexivity.
  - simpl. lia.
  - exists w', r1. split; [exact Hrun | exact Htrace].
Defined.

Lemma sent_requests_carry_the_credential_witness :
  exists new,
    sent (trace (apiClient Sample.defaults
                   [Sample.offline 0 (1 # 4); Sample.answer 1250 200 ∅]
                   (Sample.session 0 0) (Sample.get "/articles")).1)
    = new
    /\ Forall (fun q => headers q !! "Authorization" = Some "Bearer t0k3n") new.
Proof.
  destruct (sent_requests_carry_the_credential Sample.defaults
              [Sample.offline 0 (1 # 4); Sample.answer 1250 200 ∅]
              (Sample.session 0 0) (Sample.get "/articles") "t0k3n")
    as (new & Hsent & Hall).
  - vm_compute. reflexivity.
  - exists new. split; [exact Hsent |].
    eapply Forall_impl; [exact Hall |]. now intros q [Hauth _].
Defined.

Lemma settles_within_two_passes_witness :
  exists w' res,
    apiClient Sample.defaults
      [Sample.offline 0 (1 # 4); Sample.offline 1250 (1 # 2); Sample.offline 3750 0]
      (Sample.session 0 0) (Sample.get "/data/x")
    = (w', Some res).
Proof.
  destruct (settles_within_two_passes Sample.defaults (Sample.offline 0 (1 # 4))
              (Sample.offline 1250 (1 # 2)) [Sample.offline 3750 0]
              (Sample.session 0 0) (Sample.get "/data/x"))
    as (w' & res & Hrun & _).
  - intros resp Hreply. discriminate Hreply.
  - intros resp Hreply. discriminate Hreply.
  - exists w', res. exact Hrun.
Defined.

Lemma retryCount_stays_in_bounds_witness :
  0 <= retryCount
         (apiClient Sample.defaults
            [Sample.offline 0 (1 # 4); Sample.answer 1250 401 ∅]
            (Sample.session 0 0) (Sample.get "/articles")).1
    <= 3.
Proof.
  apply (retryCount_stays_in_bounds Sample.defaults
           [Sample.offline 0 (1 # 4); Sample.answer 1250 401 ∅]
           (Sample.session 0 0) (Sample.get "/articles")).
  split; vm_compute; discriminate.
Defined.

Lemma backoff_delay_is_bounded_witness :
  exists q,
    Num (inject_Z 1000 * 2 ^ (0 + 1 - 1) + (1 # 4) * 1000) = Num q
    /\ (inject_Z 1000 <= q < inject_Z (1000 * 2 ^ (3 - 1)) + 1000)%Q.
Proof.
  apply (backoff_delay_is_bounded Sample.defaults (1 # 4) (Sample.session 0 0)
           (on_rejected Sample.defaults (1 # 4) (Sample.session 0 0)
              (Sample.unreachable "/data/x")).1
           (Sample.unreachable "/data/x")
           (Num (inject_Z 1000 * 2 ^ (0 + 1 - 1) + (1 # 4) * 1000))
           (mark_retry (Sample.tagged 0 "/data/x"))).
  - simpl. lia.
  - vm_compute. discriminate.
  - split; [unfold Qle | unfold Qlt]; simpl; lia.
  - reflexivity.
  - reflexivity.
Defined.

Lemma budget_recovers_after_terminal_failure_witness :
  retryCount
    (on_rejected Sample.defaults 0 (set_retryCount 1 (Sample.session 2 0))
       (transport_error (mark_retry (Sample.tagged 0 "/data/x")) None)).1 = 0.
Proof.
  apply (budget_recovers_after_terminal_failure Sample.defaults 0 (1 # 4)
           (set_retryCount 1 (Sample.session 2 0))
           (transport_error (mark_retry (Sample.tagged 0 "/data/x")) None)
           (Sample.unreachable "/data/y")
           (mark_retry (Sample.tagged 0 "/data/x")) (Sample.tagged 0 "/data/y")).
  - reflexivity.
  - reflexivity.
  - left. reflexivity.
  - left. reflexivity.
  - reflexivity.
  - reflexivity.
  - reflexivity.
  - reflexivity.
  - vm_compute. reflexivity.
Defined.

Lemma reissue_after_429_passes_the_gate_witness :
  exists w1 d r1 w2 r2,
    on_rejected Sample.defaults 0 (Sample.session 200 0)
      (Sample.failure 429 "/data/y" ∅) = (w1, Reissue d r1)
    /\ request_interceptor 5000 "p7w4n8c2d" w1 r1 = (w2, inr r2).
Proof.
  apply (reissue_after_429_passes_the_gate Sample.defaults 0 (Sample.session 200 0)
           (Sample.failure 429 "/data/y" ∅) 5000 "p7w4n8c2d"); reflexivity.
Defined.

Lemma retry_after_edge_cases_witness :
  (on_rejected Sample.defaults 0 (Sample.session 3 0)
     (Sample.failure 429 "/data/y"
        {[ "retry-after" := "Wed, 21 Oct 2015 07:28:00 GMT" ]})).2
  = Reissue NaN (Sample.tagged 0 "/data/y").
Proof.
  destruct (retry_after_edge_cases Sample.defaults 0 (Sample.session 3 0)
              (Sample.failure 429 "/data/y"
                 {[ "retry-after" := "Wed, 21 Oct 2015 07:28:00 GMT" ]})
              {| status := 429;
                 resp_headers := {[ "retry-after" := "Wed, 21 Oct 2015 07:28:00 GMT" ]};
                 data := None |})
    as [_ Hdate].
  - reflexivity.
  - reflexivity.
  - reflexivity.
  - apply (Hdate "W"%char ("ed, 21 Oct 2015 07:28:00 GMT")).
    + vm_compute. reflexivity.
    + reflexivity.
    + discriminate.
    + discriminate.
    + reflexivity.
Defined.

Lemma client_error_surfaces_server_message_witness :
  (on_rejected Sample.defaults 0 (Sample.session 3 0)
     (transport_error (Sample.tagged 0 "/articles")
        (Some {| status := 422; resp_headers := ∅;
                 data := Some {| data_error := Opaque true;
                                 data_message := Str "Title is required" |} |}))).2
  = Reject TypeError.
Proof.
  destruct (client_error_surfaces_server_message Sample.defaults 0 (Sample.session 3 0)
              (transport_error (Sample.tagged 0 "/articles")
                 (Some {| status := 422; resp_headers := ∅;
                          data := Some {| data_error := Opaque true;
                                          data_message := Str "Title is required" |} |}))
              {| status := 422; resp_headers := ∅;
                 data := Some {| data_error := Opaque true;
                                 data_message := Str "Title is required" |} |})
    as [_ Hrun].
  - reflexivity.
  - reflexivity.
  - simpl. lia.
  - discriminate.
  - discriminate.
  - discriminate.
  - discriminate.
  - rewrite Hrun. reflexivity.
Defined.

Lemma unexpected_status_is_rejected_silently_witness :
  trace (on_rejected Sample.defaults 0 (Sample.session 3 0)
           (Sample.failure 304 "/articles" ∅)).1 = [].
Proof.
  rewrite (unexpected_status_is_rejected_silently Sample.defaults 0 (Sample.session 3 0)
             (Sample.failure 304 "/articles" ∅)
             {| status := 304; resp_headers := ∅; data := None |}).
  - reflexivity.
  - reflexivity.
  - reflexivity.
  - simpl. lia.
Defined.

Lemma credentials_change_only_on_unauthorized_witness :
  localStorage (on_rejected Sample.defaults 0 (Sample.session 3 0)
                  (Sample.failure 403 "/admin/users" ∅)).1
  = localStorage (Sample.session 3 0).
Proof.
  apply (credentials_change_only_on_unauthorized Sample.defaults 0 (Sample.session 3 0)
           (Sample.failure 403 "/admin/users" ∅)).
  right. reflexivity.
Defined.

Lemma scheduled_needs_a_future_date_witness :
  exists t time,
    truthy (Editor.scheduledAt Editor.demo_scheduled) = Some t
    /\ Editor.demo_parse t = Some time /\ 1700000000000 < time.
Proof.
  destruct (scheduled_needs_a_future_date Editor.demo_parse Editor.demo_iso false
              Editor.initial 1700000000000 Editor.demo_scheduled
              {| Editor.s_title := EmptyString; Editor.s_excerpt := Some EmptyString;
                 Editor.s_content := EmptyString; Editor.s_featuredImage := EmptyString;
                 Editor.s_featuredImageAlt := EmptyString;
                 Editor.s_categoryId := EmptyString;
                 Editor.s_authorId := Some EmptyString;
                 Editor.s_status := Editor.Scheduled;
                 Editor.s_scheduledAt := Some "1893506400000";
                 Editor.s_isPinned := Some false;
                 Editor.s_seoTitle := Some EmptyString;
                 Editor.s_seoDescription := Some EmptyString |})
    as (t & time & Hdate & Hparse & Hfuture & _).
  - reflexivity.
  - vm_compute. reflexivity.
  - exists t, time. now repeat split.
Defined.


Lemma uploaded_image_is_submitted_witness :
  exists d,
    Editor.sent_data
      (Editor.submit Editor.demo_parse Editor.demo_iso Editor.demo_resolver false
         (Editor.handleImageUploaded
            (Some {| Editor.medium := "/uploads/reef-medium.jpg";
                     Editor.altText := "Coral reef" |})
            Editor.demo_editor)
         1700000000000)
    = Some d
    /\ Editor.s_featuredImage d = "/uploads/reef-medium.jpg".
Proof.
  eexists. split; [reflexivity |].
  apply (uploaded_image_is_submitted Editor.demo_parse Editor.demo_iso
           Editor.demo_resolver false Editor.demo_editor 1700000000000
           (Some {| Editor.medium := "/uploads/reef-medium.jpg";
                    Editor.altText := "Coral reef" |})).
  reflexivity.
Defined.

Lemma alt_text_change_is_submitted_witness :
  exists d,
    Editor.sent_data
      (Editor.submit Editor.demo_parse Editor.demo_iso Editor.demo_resolver false
         (Editor.handleAltTextChange "Coral reef" Editor.demo_editor) 1700000000000)
    = Some d
    /\ Editor.s_featuredImageAlt d = "Coral reef".
Proof.
  eexists. split; [reflexivity |].
  apply (alt_text_change_is_submitted Editor.demo_parse Editor.demo_iso
           Editor.demo_resolver false Editor.demo_editor 1700000000000 "Coral reef").
  reflexivity.
Defined.

Lemma populated_form_round_trip_witness :
  exists d,
    Editor.submit Editor.demo_parse Editor.demo_iso Editor.demo_resolver true
      (Editor.populate (fun t => t) Editor.demo_article Editor.initial) 1700000000000
    = Editor.Update d
    /\ Editor.s_title d = "Carnival dates announced"
    /\ Editor.s_featuredImageAlt d = EmptyString.
Proof.
  eexists. split; [reflexivity |].
  destruct (populated_form_round_trip Editor.demo_parse (fun t => t) Editor.demo_iso
              Editor.demo_resolver true Editor.initial 1700000000000
              Editor.demo_article _ eq_refl eq_refl)
    as (Htitle & _ & _ & _ & _ & _ & _ & Halt & _).
  split; [exact Htitle | exact Halt].
Defined.
